(** * Leave-management canister (src/src/index.ts): model and properties

    The canister keeps two keyed stores, [userStorage] and [leaveStorage],
    and exposes query and update calls over them.  The model below follows
    index.ts function by function, with explicit state passing: every update
    call maps a [State] to a result and a new [State].

    Modelling conventions.
    - The whole-number model: a JavaScript [number] that holds a millisecond
      instant or a count of days is an integer [Z], and the only quotient of
      the program ([findDiffInDays]) is computed over the rationals [Q].  It
      is what the code computes as long as every number involved is a whole
      number of magnitude at most 2^53 ([exactNumber]); statements that
      depend on the value of a sum, a difference or a duration carry that
      range.
    - The binary64 model ([Module IEEE]): the same calls over IEEE 754
      doubles, NaN and the infinities included.  It shows what the code
      computes outside the exact range.
    - [nat64] timestamps are [N].
    - [StableBTreeMap<string, V>] is a [gmap string V]; [values ()] lists the
      stored values in the map's canonical order.
    - The [uuid] package and the JavaScript [Date] object are host
      collaborators: they are the fields of the class [Host].  The values the
      host hands to one call ([uuidv4 ()], [ic.time ()], the current year) are
      the fields of [Env]. *)

From Stdlib Require Import ZArith QArith Qround Qabs Ascii String List Lia.
From Stdlib Require SpecFloat.
From stdpp Require Import base option gmap strings list fin_maps.

Close Scope Q_scope.
Open Scope Z_scope.

(** ** Data model *)

Inductive Result (T : Type) : Type :=
| Ok (value : T)
| Err (message : string).
Arguments Ok {T} value.
Arguments Err {T} message.

Definition isOk {T : Type} (r : Result T) : bool :=
  match r with Ok _ => true | Err _ => false end.

(** [const DEFAULT_AVAILABLE_DAYS = 21]. *)
Definition DEFAULT_AVAILABLE_DAYS : Z := 21.

(** [enum LeaveStatus]: a string enum; the service interface carries it as
    [text], so an update call can receive any string. *)
Definition LeaveStatus : Type := string.
Definition PENDING : LeaveStatus := "PENDING"%string.
Definition APPROVED : LeaveStatus := "APPROVED"%string.
Definition REJECTED : LeaveStatus := "REJECTED"%string.

Module User.
Record t : Type := mk {
  id : string;
  name : string;
  email : string;
  availableDays : Z;
  createdAt : N;
  updatedAt : option N
}.
End User.

(** [availableDays?: number]: [None] when the property is absent. *)
Module UserPayload.
Record t : Type := mk {
  name : string;
  email : string;
  availableDays : option Z
}.
End UserPayload.

Module Leave.
Record t : Type := mk {
  id : string;
  userId : string;
  startDate : Z;
  endDate : Z;
  days : Z;
  status : LeaveStatus;
  createdAt : N;
  updatedAt : option N
}.
End Leave.

Module LeavePayload.
Record t : Type := mk {
  startDate : Z;
  endDate : Z
}.
End LeavePayload.

(** The two stores. *)
Record State : Type := mkState {
  leaveStorage : gmap string Leave.t;
  userStorage : gmap string User.t
}.

Definition emptyState : State :=
  {| leaveStorage := ∅; userStorage := ∅ |}.

Definition values {V : Type} (m : gmap string V) : list V :=
  (map_to_list m).*2.

(** What the host supplies to one call. *)
Record Env : Type := mkEnv {
  uuidv4 : string;
  ic_time : N;
  currentYear : Z
}.

(** The packages index.ts imports: [validate] of uuid, and
    [new Date (ms).getFullYear ()] ([None] for an invalid date). *)
Class Host : Type := {
  isValidUUID : string -> bool;
  getFullYear : Z -> option Z
}.

(** JavaScript truthiness of a string: only the empty string is falsy. *)
Definition falsy (s : string) : bool := String.eqb s "".

Inductive Operation : Type := ADD | SUBTRACT.

(** ** Duration *)

Definition oneDay : Z := 24 * 60 * 60 * 1000.

(** [Math.round]: the nearest integer, a tie going up. *)
Definition Math_round (q : Q) : Z := Qfloor (q + (1 # 2))%Q.

(** Whole-number model: difference, quotient and rounding are exact.  The
    code's double quotient gives the same duration when the two instants and
    their difference are exact numbers; [IEEE.findDiffInDays] is the code's
    arithmetic for every double. *)
Definition findDiffInDays (startDate endDate : Z) : Z :=
  let diffDays :=
    Math_round (Qabs (inject_Z (endDate - startDate) / inject_Z oneDay)%Q) in
  Z.max 1 diffDays.

(** round (n / d) for d > 0, in integer arithmetic: the integer nearest to
    the quotient, a tie going up. *)
Definition round_div (n d : Z) : Z := (2 * n + d) / (2 * d).

(** The duration in the words of the specification:
    max (1, round (|end - start| / oneDay)). *)
Definition duration_spec (startDate endDate : Z) : Z :=
  Z.max 1 (round_div (Z.abs (endDate - startDate)) oneDay).

(** ** The canister's calls *)

Section Canister.
Context {host : Host}.

(** *** User management *)

Definition getUser (id : string) (st : State) : Result User.t :=
  if negb (isValidUUID id) then Err "Please enter a valid User ID!"
  else
    match userStorage st !! id with
    | Some userData => Ok userData
    | None => Err ("User with ID " +:+ id +:+ " not found!")
    end.

Definition getUsers (st : State) : Result (list User.t) :=
  Ok (values (userStorage st)).

Definition addUser (env : Env) (payload : UserPayload.t) (st : State)
  : Result User.t * State :=
  if falsy (UserPayload.name payload) || falsy (UserPayload.email payload)
  then (Err "Name and Email are required. Please provide valid data.", st)
  else
    let users := values (userStorage st) in
    let isUserExists :=
      List.find
        (fun user => String.eqb (User.email user) (UserPayload.email payload))
        users in
    match isUserExists with
    | Some _ => (Err "User with this email already exists!", st)
    | None =>
      let availableDays :=
        default DEFAULT_AVAILABLE_DAYS (UserPayload.availableDays payload) in
      let user :=
        {| User.id := uuidv4 env;
           User.createdAt := ic_time env;
           User.updatedAt := None;
           User.name := UserPayload.name payload;
           User.email := UserPayload.email payload;
           User.availableDays := availableDays |} in
      (Ok user,
       {| leaveStorage := leaveStorage st;
          userStorage := <[User.id user := user]> (userStorage st) |})
    end.

(** [{ ...user, ...payload, updatedAt }]: the payload's name and email
    replace the stored ones, and so does its availableDays when present. *)
Definition updateUser (env : Env) (id : string) (payload : UserPayload.t)
    (st : State) : Result User.t * State :=
  if negb (isValidUUID id) then (Err "Please enter a valid User ID!", st)
  else if falsy (UserPayload.name payload) || falsy (UserPayload.email payload)
  then (Err "Name and Email cannot be empty. Please provide valid data.", st)
  else
    match userStorage st !! id with
    | Some user =>
      let updatedUser :=
        {| User.id := User.id user;
           User.createdAt := User.createdAt user;
           User.name := UserPayload.name payload;
           User.email := UserPayload.email payload;
           User.availableDays :=
             default (User.availableDays user)
                     (UserPayload.availableDays payload);
           User.updatedAt := Some (ic_time env) |} in
      (Ok updatedUser,
       {| leaveStorage := leaveStorage st;
          userStorage := <[User.id user := updatedUser]> (userStorage st) |})
    | None => (Err ("User with ID " +:+ id +:+ " not found!"), st)
    end.

Definition deleteUser (id : string) (st : State) : Result User.t * State :=
  if negb (isValidUUID id) then (Err "Please enter a valid User ID!", st)
  else
    match userStorage st !! id with
    | Some deletedUser =>
      (Ok deletedUser,
       {| leaveStorage := leaveStorage st;
          userStorage := delete id (userStorage st) |})
    | None => (Err ("User with ID " +:+ id +:+ " not found!"), st)
    end.

(** *** Helpers *)

(** The guard [!user.Ok.availableDays] holds for a balance of 0.  The
    payload handed to [updateUser] is the stored user with the new
    balance; the other properties the spread copies are those of the same
    stored record.  Whole-number model: the sum and the difference are
    exact, as the code's are while balance, days and result are exact
    numbers; [IEEE.updateUsersAvailableDays] rounds as the code does and
    its guard also holds for NaN. *)
Definition updateUsersAvailableDays (env : Env) (userId : string)
    (leaveDays : Z) (operation : Operation) (st : State)
  : Result User.t * State :=
  if negb (isValidUUID userId) then (Err "Please enter a valid User ID!", st)
  else
    match getUser userId st with
    | Err _ =>
      (Err "Could not update the user's leave status. Something went wrong!",
       st)
    | Ok user =>
      if User.availableDays user =? 0
      then
        (Err "Could not update the user's leave status. Something went wrong!",
         st)
      else
        let availableDays :=
          match operation with
          | ADD => User.availableDays user + leaveDays
          | SUBTRACT => User.availableDays user - leaveDays
          end in
        updateUser env userId
          {| UserPayload.name := User.name user;
             UserPayload.email := User.email user;
             UserPayload.availableDays := Some availableDays |}
          st
    end.

(** *** Leave management *)

Definition getLeaveRequests (st : State) : Result (list Leave.t) :=
  Ok (values (leaveStorage st)).

(** The arrow function destructures [{ userId }] from the stored request:
    inside it, both sides of [userId === userId] are the stored field. *)
Definition getUsersLeaveRequests (userId : string) (st : State)
  : Result (list Leave.t) :=
  if negb (isValidUUID userId) then Err "Please enter a valid User ID!"
  else
    Ok (List.filter
          (fun leave => String.eqb (Leave.userId leave) (Leave.userId leave))
          (values (leaveStorage st))).

Definition getLeaveRequestsByStatus (status : LeaveStatus) (st : State)
  : Result (list Leave.t) :=
  if negb (existsb (String.eqb status) [PENDING; APPROVED; REJECTED])
  then Err "Please enter a valid status (PENDING, APPROVED, or REJECTED)."
  else
    Ok (List.filter (fun leave => String.eqb (Leave.status leave) status)
                    (values (leaveStorage st))).

Definition isYear (year : option Z) (current : Z) : bool :=
  match year with
  | Some y => y =? current
  | None => false
  end.

(** The overlap test of [requestLeave] against one stored request. *)
Definition overlaps (startDate endDate : Z) (currentLeave : Leave.t) : bool :=
  negb ((endDate <? Leave.startDate currentLeave)
        || (startDate >? Leave.endDate currentLeave)).

(** Whole-number model: dates and balance are whole numbers, so each
    comparison is the code's; [IEEE.requestLeave] has the comparisons of
    doubles, false whenever a side is NaN. *)
Definition requestLeave (env : Env) (userId : string)
    (payload : LeavePayload.t) (st : State) : Result Leave.t * State :=
  if negb (isValidUUID userId) then (Err "Please enter a valid User ID!", st)
  else
    match getUser userId st with
    | Err _ => (Err "User with the given ID was not found.", st)
    | Ok user =>
      let startDate := LeavePayload.startDate payload in
      let endDate := LeavePayload.endDate payload in
      if startDate >=? endDate
      then (Err "Start date must be before end date.", st)
      else if negb (isYear (getFullYear startDate) (currentYear env))
              || negb (isYear (getFullYear endDate) (currentYear env))
      then (Err "Leave period should be in the current calendar year.", st)
      else
        let diffDays := findDiffInDays startDate endDate in
        if diffDays <? 1
        then (Err (String "010" "Leave should be at least one day."), st)
        else if User.availableDays user <? diffDays
        then (Err "You are exceeding your available days for leave.", st)
        else
          let leaves :=
            List.filter
              (fun leave => String.eqb (Leave.userId leave) userId)
              (values (leaveStorage st)) in
          let isOverlapping := existsb (overlaps startDate endDate) leaves in
          if isOverlapping
          then
            (Err "The chosen leave period overlaps with an existing leave.",
             st)
          else
            let leave :=
              {| Leave.id := uuidv4 env;
                 Leave.userId := userId;
                 Leave.createdAt := ic_time env;
                 Leave.updatedAt := None;
                 Leave.status := PENDING;
                 Leave.days := diffDays;
                 Leave.startDate := startDate;
                 Leave.endDate := endDate |} in
            let st1 :=
              {| leaveStorage := <[Leave.id leave := leave]> (leaveStorage st);
                 userStorage := userStorage st |} in
            let st2 :=
              snd (updateUsersAvailableDays env userId diffDays SUBTRACT st1) in
            (Ok leave, st2)
    end.

(** Whole-number model: the stored days are a whole number; for NaN or
    overflowing dates the code stores NaN or Infinity, as [IEEE.updateLeave]
    does. *)
Definition updateLeave (env : Env) (id : string) (payload : LeavePayload.t)
    (st : State) : Result Leave.t * State :=
  if negb (isValidUUID id) then (Err "Please enter a valid Leave ID!", st)
  else
    match leaveStorage st !! id with
    | Some leave =>
      let diffDays :=
        findDiffInDays (LeavePayload.startDate payload)
                       (LeavePayload.endDate payload) in
      if diffDays <? 1
      then (Err "Leave should be at least one day.", st)
      else
        let updatedLeave :=
          {| Leave.id := Leave.id leave;
             Leave.userId := Leave.userId leave;
             Leave.status := Leave.status leave;
             Leave.createdAt := Leave.createdAt leave;
             Leave.startDate := LeavePayload.startDate payload;
             Leave.endDate := LeavePayload.endDate payload;
             Leave.days := diffDays;
             Leave.updatedAt := Some (ic_time env) |} in
        (Ok updatedLeave,
         {| leaveStorage :=
              <[Leave.id leave := updatedLeave]> (leaveStorage st);
            userStorage := userStorage st |})
    | None => (Err ("Leave with ID " +:+ id +:+ " not found!"), st)
    end.

Definition deleteLeave (id : string) (st : State) : Result Leave.t * State :=
  if negb (isValidUUID id) then (Err "Please enter a valid Leave ID!", st)
  else
    match leaveStorage st !! id with
    | Some deletedLeave =>
      (Ok deletedLeave,
       {| leaveStorage := delete id (leaveStorage st);
          userStorage := userStorage st |})
    | None => (Err ("Leave with ID " +:+ id +:+ " not found!"), st)
    end.

(** The result of the balance adjustment is dropped; its state is kept. *)
Definition updateLeaveStatus (env : Env) (id : string) (status : LeaveStatus)
    (st : State) : Result Leave.t * State :=
  if negb (isValidUUID id) then (Err "Please enter a valid Leave ID!", st)
  else
    match leaveStorage st !! id with
    | Some leave =>
      let updatedLeave :=
        {| Leave.id := Leave.id leave;
           Leave.userId := Leave.userId leave;
           Leave.startDate := Leave.startDate leave;
           Leave.endDate := Leave.endDate leave;
           Leave.days := Leave.days leave;
           Leave.createdAt := Leave.createdAt leave;
           Leave.status := status;
           Leave.updatedAt := Some (ic_time env) |} in
      let st1 :=
        {| leaveStorage :=
             <[Leave.id leave := updatedLeave]> (leaveStorage st);
           userStorage := userStorage st |} in
      let st2 :=
        if String.eqb status REJECTED
        then snd (updateUsersAvailableDays env (Leave.userId leave)
                                           (Leave.days leave) ADD st1)
        else snd (updateUsersAvailableDays env (Leave.userId leave)
                                           (Leave.days leave) SUBTRACT st1) in
      (Ok updatedLeave, st2)
    | None => (Err ("Leave with ID " +:+ id +:+ " not found!"), st)
    end.

(** *** Sequences of update calls *)

Inductive Call : Type :=
| CallAddUser (payload : UserPayload.t)
| CallUpdateUser (id : string) (payload : UserPayload.t)
| CallDeleteUser (id : string)
| CallRequestLeave (userId : string) (payload : LeavePayload.t)
| CallUpdateLeave (id : string) (payload : LeavePayload.t)
| CallDeleteLeave (id : string)
| CallUpdateLeaveStatus (id : string) (status : LeaveStatus).

(** One call: whether it returned [Ok], and the state it leaves. *)
Definition perform (env : Env) (c : Call) (st : State) : bool * State :=
  match c with
  | CallAddUser p => let r := addUser env p st in (isOk (fst r), snd r)
  | CallUpdateUser i p =>
    let r := updateUser env i p st in (isOk (fst r), snd r)
  | CallDeleteUser i => let r := deleteUser i st in (isOk (fst r), snd r)
  | CallRequestLeave u p =>
    let r := requestLeave env u p st in (isOk (fst r), snd r)
  | CallUpdateLeave i p =>
    let r := updateLeave env i p st in (isOk (fst r), snd r)
  | CallDeleteLeave i => let r := deleteLeave i st in (isOk (fst r), snd r)
  | CallUpdateLeaveStatus i s =>
    let r := updateLeaveStatus env i s st in (isOk (fst r), snd r)
  end.

Fixpoint run (calls : list (Env * Call)) (st : State) : State :=
  match calls with
  | [] => st
  | (env, c) :: rest => run rest (snd (perform env c st))
  end.

(** The states the canister can be in: it starts empty and every
    identifier the host generates is a valid UUID. *)
Inductive reachable : State -> Prop :=
| reachable_init : reachable emptyState
| reachable_call st env c :
    reachable st ->
    isValidUUID (uuidv4 env) = true ->
    reachable (snd (perform env c st)).

End Canister.

(** ** A concrete host, for the examples

    [validate]: 36 characters, hyphens at offsets 8, 13, 18 and 23,
    hexadecimal digits elsewhere.  [getFullYear]: the UTC civil year of a
    millisecond instant within the range of [Date]. *)

Definition isHex (a : ascii) : bool :=
  let n := nat_of_ascii a in
  ((48 <=? n) && (n <=? 57) || (65 <=? n) && (n <=? 70)
   || (97 <=? n) && (n <=? 102))%nat.

Fixpoint uuidShape (i : nat) (s : string) : bool :=
  match s with
  | EmptyString => Nat.eqb i 36
  | String a rest =>
    (if existsb (Nat.eqb i) [8; 13; 18; 23]%nat
     then Ascii.eqb a "-" else isHex a)
    && uuidShape (S i) rest
  end.

Definition utcYear (ms : Z) : option Z :=
  if (Z.abs ms >? 8640000000000000) then None
  else
    let z := ms / oneDay + 719468 in
    let era := z / 146097 in
    let doe := z - era * 146097 in
    let yoe := (doe - doe / 1460 + doe / 36524 - doe / 146096) / 365 in
    let doy := doe - (365 * yoe + yoe / 4 - yoe / 100) in
    let mp := (5 * doy + 2) / 153 in
    Some (yoe + era * 400 + (if mp <? 10 then 0 else 1)).

Definition demoHost : Host :=
  {| isValidUUID := uuidShape 0; getFullYear := utcYear |}.

(** Midnight UTC of the n-th day of 2024 (day 0 is 1 January). *)
Definition day (n : Z) : Z := 1704067200000 + n * oneDay.

Definition idA : string := "aaaaaaaa-aaaa-4aaa-8aaa-aaaaaaaaaaaa".
Definition idB : string := "bbbbbbbb-bbbb-4bbb-8bbb-bbbbbbbbbbbb".
Definition idL : string := "11111111-1111-4111-8111-111111111111".
Definition idM : string := "22222222-2222-4222-8222-222222222222".

Definition envWith (fresh : string) (now : N) : Env :=
  {| uuidv4 := fresh; ic_time := now; currentYear := 2024 |}.

Definition newUser (name email : string) (balance : Z) : UserPayload.t :=
  {| UserPayload.name := name; UserPayload.email := email;
     UserPayload.availableDays := Some balance |}.

Definition range (startDay endDay : Z) : LeavePayload.t :=
  {| LeavePayload.startDate := day startDay;
     LeavePayload.endDate := day endDay |}.

Definition balanceOf (id : string) (st : State) : option Z :=
  User.availableDays <$> userStorage st !! id.

(** ** Invariants and conditions used in the statements *)

Section Invariants.
Context {host : Host}.

(** What every stored record satisfies in a reachable state. *)
Definition wfUser (k : string) (u : User.t) : Prop :=
  User.id u = k /\ isValidUUID k = true
  /\ falsy (User.name u) = false /\ falsy (User.email u) = false.

Definition wfLeave (k : string) (l : Leave.t) : Prop :=
  Leave.id l = k /\ isValidUUID k = true
  /\ isValidUUID (Leave.userId l) = true /\ 1 <= Leave.days l.

Definition wfState (st : State) : Prop :=
  map_Forall wfUser (userStorage st) /\ map_Forall wfLeave (leaveStorage st).

(** availableDays >= 0 for every stored user. *)
Definition nonnegBalances (st : State) : Prop :=
  forall k u, userStorage st !! k = Some u -> 0 <= User.availableDays u.

(** No two stored users share an email. *)
Definition uniqueEmails (st : State) : Prop :=
  forall k1 k2 u1 u2,
    userStorage st !! k1 = Some u1 ->
    userStorage st !! k2 = Some u2 ->
    User.email u1 = User.email u2 -> k1 = k2.

Definition payloadNonneg (p : UserPayload.t) : Prop :=
  match UserPayload.availableDays p with
  | Some a => 0 <= a
  | None => True
  end.

(** The calls that cannot take a balance below zero from [st]: a user
    payload carries no negative balance, and a status update either
    rejects or charges no more than the owner has. *)
Definition keepsFloor (st : State) (c : Call) : Prop :=
  match c with
  | CallAddUser p => payloadNonneg p
  | CallUpdateUser _ p => payloadNonneg p
  | CallUpdateLeaveStatus id status =>
    status = REJECTED
    \/ forall l u,
         leaveStorage st !! id = Some l ->
         userStorage st !! Leave.userId l = Some u ->
         Leave.days l <= User.availableDays u
  | _ => True
  end.

Fixpoint floorKept (calls : list (Env * Call)) (st : State) : Prop :=
  match calls with
  | [] => True
  | (env, c) :: rest =>
    isValidUUID (uuidv4 env) = true /\ keepsFloor st c
    /\ floorKept rest (snd (perform env c st))
  end.

(** Every call of the sequence returns [Ok]. *)
Fixpoint allOk (calls : list (Env * Call)) (st : State) : bool :=
  match calls with
  | [] => true
  | (env, c) :: rest =>
    fst (perform env c st) && allOk rest (snd (perform env c st))
  end.

(** The request stored by a status update. *)
Definition withStatus (env : Env) (status : LeaveStatus) (l : Leave.t)
  : Leave.t :=
  {| Leave.id := Leave.id l;
     Leave.userId := Leave.userId l;
     Leave.startDate := Leave.startDate l;
     Leave.endDate := Leave.endDate l;
     Leave.days := Leave.days l;
     Leave.createdAt := Leave.createdAt l;
     Leave.status := status;
     Leave.updatedAt := Some (ic_time env) |}.

(** The user stored by a balance adjustment. *)
Definition withBalance (env : Env) (balance : Z) (u : User.t) : User.t :=
  {| User.id := User.id u;
     User.createdAt := User.createdAt u;
     User.name := User.name u;
     User.email := User.email u;
     User.availableDays := balance;
     User.updatedAt := Some (ic_time env) |}.

(** The balance a credit or a debit computes. *)
Definition adjusted (operation : Operation) (balance leaveDays : Z) : Z :=
  match operation with
  | ADD => balance + leaveDays
  | SUBTRACT => balance - leaveDays
  end.

(** The direction updateLeaveStatus settles a target status with. *)
Definition settlement (status : LeaveStatus) : Operation :=
  if String.eqb status REJECTED then ADD else SUBTRACT.

(** Each stored request's days are the duration of its stored range. *)
Definition daysConsistent (st : State) : Prop :=
  forall k l,
    leaveStorage st !! k = Some l ->
    Leave.days l = findDiffInDays (Leave.startDate l) (Leave.endDate l).

(** No two stored requests of one user share an instant. *)
Definition disjointLeaves (st : State) : Prop :=
  forall k1 k2 l1 l2,
    k1 <> k2 ->
    leaveStorage st !! k1 = Some l1 ->
    leaveStorage st !! k2 = Some l2 ->
    Leave.userId l1 = Leave.userId l2 ->
    Leave.endDate l1 < Leave.startDate l2
    \/ Leave.endDate l2 < Leave.startDate l1.

Definition isUpdateLeave (c : Call) : bool :=
  match c with
  | CallUpdateLeave _ _ => true
  | _ => false
  end.

(** Every identifier the host generates during the calls is a valid UUID. *)
Definition hostIdsValid (calls : list (Env * Call)) : bool :=
  forallb (fun ec => isValidUUID (uuidv4 (fst ec))) calls.

Definition noUpdateLeave (calls : list (Env * Call)) : bool :=
  forallb (fun ec => negb (isUpdateLeave (snd ec))) calls.

(** An updateUser call whose new email is held by no other stored user. *)
Definition emailKept (st : State) (c : Call) : Prop :=
  match c with
  | CallUpdateUser id p =>
    forall k u,
      userStorage st !! k = Some u ->
      User.email u = UserPayload.email p -> k = id
  | _ => True
  end.

Fixpoint emailsKept (calls : list (Env * Call)) (st : State) : Prop :=
  match calls with
  | [] => True
  | (env, c) :: rest =>
    isValidUUID (uuidv4 env) = true /\ emailKept st c
    /\ emailsKept rest (snd (perform env c st))
  end.

(** The values of [enum LeaveStatus]. *)
Definition validStatus (status : LeaveStatus) : Prop :=
  status = PENDING \/ status = APPROVED \/ status = REJECTED.

(** The user addUser stores. *)
Definition newUserRecord (env : Env) (p : UserPayload.t) : User.t :=
  {| User.id := uuidv4 env;
     User.createdAt := ic_time env;
     User.updatedAt := None;
     User.name := UserPayload.name p;
     User.email := UserPayload.email p;
     User.availableDays :=
       default DEFAULT_AVAILABLE_DAYS (UserPayload.availableDays p) |}.

(** The user updateUser stores in place of [u]. *)
Definition updatedUserRecord (env : Env) (p : UserPayload.t) (u : User.t)
  : User.t :=
  {| User.id := User.id u;
     User.createdAt := User.createdAt u;
     User.name := UserPayload.name p;
     User.email := UserPayload.email p;
     User.availableDays :=
       default (User.availableDays u) (UserPayload.availableDays p);
     User.updatedAt := Some (ic_time env) |}.

(** The request requestLeave stores. *)
Definition newLeaveRecord (env : Env) (userId : string) (p : LeavePayload.t)
  : Leave.t :=
  {| Leave.id := uuidv4 env;
     Leave.userId := userId;
     Leave.createdAt := ic_time env;
     Leave.updatedAt := None;
     Leave.status := PENDING;
     Leave.days :=
       findDiffInDays (LeavePayload.startDate p) (LeavePayload.endDate p);
     Leave.startDate := LeavePayload.startDate p;
     Leave.endDate := LeavePayload.endDate p |}.

(** The request updateLeave stores in place of [l]. *)
Definition editedLeaveRecord (env : Env) (p : LeavePayload.t) (l : Leave.t)
  : Leave.t :=
  {| Leave.id := Leave.id l;
     Leave.userId := Leave.userId l;
     Leave.status := Leave.status l;
     Leave.createdAt := Leave.createdAt l;
     Leave.startDate := LeavePayload.startDate p;
     Leave.endDate := LeavePayload.endDate p;
     Leave.days :=
       findDiffInDays (LeavePayload.startDate p) (LeavePayload.endDate p);
     Leave.updatedAt := Some (ic_time env) |}.

End Invariants.

(** ** Scenarios on the concrete host *)

Definition demoRun (calls : list (Env * Call)) : State :=
  @run demoHost calls emptyState.

Definition annWith (balance : Z) (updated : option N) : User.t :=
  {| User.id := idA; User.name := "Ann"; User.email := "ann@x.org";
     User.availableDays := balance;
     User.createdAt := 1; User.updatedAt := updated |}.

Definition leaveOfAnn (startDay endDay n : Z) (created : N) : Leave.t :=
  {| Leave.id := idL; Leave.userId := idA;
     Leave.startDate := day startDay; Leave.endDate := day endDay;
     Leave.days := n; Leave.status := PENDING;
     Leave.createdAt := created; Leave.updatedAt := None |}.

(** Ann joins with a balance. *)
Definition annJoins (balance : Z) : list (Env * Call) :=
  [ (envWith idA 1, CallAddUser (newUser "Ann" "ann@x.org" balance)) ].

(** Ann joins and asks for the days from [startDay] to [endDay]. *)
Definition annAsks (balance startDay endDay : Z) : list (Env * Call) :=
  annJoins balance
  ++ [ (envWith idL 2, CallRequestLeave idA (range startDay endDay)) ].

Definition approve (now : N) : Env * Call :=
  (envWith idM now, CallUpdateLeaveStatus idL APPROVED).

Definition reject (now : N) : Env * Call :=
  (envWith idM now, CallUpdateLeaveStatus idL REJECTED).

(** Ann and Bob, with different emails. *)
Definition annAndBob : list (Env * Call) :=
  [ (envWith idA 1, CallAddUser (newUser "Ann" "ann@x.org" 21));
    (envWith idB 1, CallAddUser (newUser "Bob" "bob@x.org" 21)) ].

(** Ann and Bob; Ann has one request, for days 10 to 15. *)
Definition annAsksBobIdle : list (Env * Call) :=
  annAndBob ++ [ (envWith idL 2, CallRequestLeave idA (range 10 15)) ].

(** Bob takes Ann's email. *)
Definition bobTakesEmail : list (Env * Call) :=
  annAndBob
  ++ [ (envWith idM 3, CallUpdateUser idB (newUser "Bob" "ann@x.org" 21)) ].

(** Ann asks for days 10 to 13 and her account is then deleted. *)
Definition annLeaves : list (Env * Call) :=
  annAsks 5 10 13 ++ [ (envWith idM 3, CallDeleteUser idA) ].

Definition bobWith (balance : Z) (updated : option N) : User.t :=
  {| User.id := idB; User.name := "Bob"; User.email := "bob@x.org";
     User.availableDays := balance;
     User.createdAt := 1; User.updatedAt := updated |}.

(** ** The exact range of the whole-number model

    Every whole number of magnitude at most 2^53 is a double, and a sum or a
    difference of two of them is computed exactly when it stays in that
    range.  Statements that depend on the value an addition, a subtraction
    or the duration yields carry this range as a hypothesis. *)

Definition MAX_EXACT : Z := 9007199254740992.

Definition exactNumber (z : Z) : Prop := Z.abs z <= MAX_EXACT.

(** A payload whose numbers, and for dates their difference, are exact. *)
Definition exactUserPayload (p : UserPayload.t) : Prop :=
  match UserPayload.availableDays p with
  | Some a => exactNumber a
  | None => True
  end.

Definition exactLeavePayload (p : LeavePayload.t) : Prop :=
  exactNumber (LeavePayload.startDate p)
  /\ exactNumber (LeavePayload.endDate p)
  /\ exactNumber (LeavePayload.endDate p - LeavePayload.startDate p).

Definition exactBalances (st : State) : Prop :=
  forall k u,
    userStorage st !! k = Some u -> exactNumber (User.availableDays u).

Definition exactCall (c : Call) : Prop :=
  match c with
  | CallAddUser p => exactUserPayload p
  | CallUpdateUser _ p => exactUserPayload p
  | CallRequestLeave _ p => exactLeavePayload p
  | CallUpdateLeave _ p => exactLeavePayload p
  | _ => True
  end.

Section ExactRuns.
Context {host : Host}.

(** A sequence of calls that keeps the floor ([keepsFloor]) and stays in the
    exact range: the numbers of every payload are exact and so is every
    balance stored after every call. *)
Fixpoint floorKeptExact (calls : list (Env * Call)) (st : State) : Prop :=
  match calls with
  | [] => True
  | (env, c) :: rest =>
    isValidUUID (uuidv4 env) = true /\ keepsFloor st c
    /\ exactCall c /\ exactBalances (snd (perform env c st))
    /\ floorKeptExact rest (snd (perform env c st))
  end.

End ExactRuns.

(** ** The arithmetic of the code: binary64

    The same calls over IEEE 754 doubles, with the operations of the
    Standard Library's [SpecFloat] at precision 53 and maximal exponent
    1024.  This is what index.ts computes for every [number], NaN and the
    infinities included; the whole-number model above agrees with it on the
    exact range. *)

Module IEEE.

Definition number : Type := SpecFloat.spec_float.

Definition prec : Z := 53.
Definition emax : Z := 1024.

(** The double nearest to a whole number. *)
Definition ofZ (z : Z) : number :=
  SpecFloat.binary_normalize prec emax z 0 false.

Definition NaN : number := SpecFloat.S754_nan.
Definition Infinity : number := SpecFloat.S754_infinity false.

(** The whole number a double is, when it is one. *)
Definition toZ (x : number) : option Z :=
  match x with
  | SpecFloat.S754_zero _ => Some 0
  | SpecFloat.S754_finite s m e =>
    let sign := if s then Z.opp else (fun z => z) in
    if 0 <=? e then Some (sign (Z.pos m * 2 ^ e))
    else if Z.pos m mod 2 ^ (- e) =? 0 then Some (sign (Z.pos m / 2 ^ (- e)))
    else None
  | _ => None
  end.

(** The time value of [new Date (x)]: none for NaN, an infinity or a
    magnitude above 8.64e15; otherwise [x] truncated towards zero. *)
Definition timeValue (x : number) : option Z :=
  match x with
  | SpecFloat.S754_zero _ => Some 0
  | SpecFloat.S754_finite s m e =>
    let sign := if s then Z.opp else (fun z => z) in
    let t := if 0 <=? e then Z.pos m * 2 ^ e else Z.pos m / 2 ^ (- e) in
    if t >? 8640000000000000 then None else Some (sign t)
  | _ => None
  end.

Definition add (x y : number) : number := SpecFloat.SFadd prec emax x y.
Definition sub (x y : number) : number := SpecFloat.SFsub prec emax x y.
Definition div (x y : number) : number := SpecFloat.SFdiv prec emax x y.

(** [x < y]; false when either side is NaN. *)
Definition lt (x y : number) : bool := SpecFloat.SFltb x y.

(** [x >= y]; false when either side is NaN. *)
Definition ge (x y : number) : bool := SpecFloat.SFleb y x.

(** [!x] for a number: true for a zero and for NaN. *)
Definition falsyNumber (x : number) : bool :=
  match x with
  | SpecFloat.S754_zero _ => true
  | SpecFloat.S754_nan => true
  | _ => false
  end.

Definition Math_abs (x : number) : number := SpecFloat.SFabs x.

(** [Math.round]: the integer nearest to [x], a tie going up; NaN and the
    infinities are returned as they are. *)
Definition Math_round (x : number) : number :=
  match x with
  | SpecFloat.S754_finite s m e =>
    if 0 <=? e then x
    else
      let n := if s then Z.neg m else Z.pos m in
      SpecFloat.binary_normalize prec emax
        ((2 * n + 2 ^ (- e)) / 2 ^ (1 - e)) 0 s
  | _ => x
  end.

(** [Math.max]: NaN when either argument is NaN. *)
Definition Math_max (x y : number) : number :=
  match x, y with
  | SpecFloat.S754_nan, _ => NaN
  | _, SpecFloat.S754_nan => NaN
  | _, _ => if lt x y then y else x
  end.

Definition oneDay : number := ofZ (24 * 60 * 60 * 1000).

Definition findDiffInDays (startDate endDate : number) : number :=
  let diffDays := Math_round (Math_abs (div (sub endDate startDate) oneDay)) in
  Math_max (ofZ 1) diffDays.

Module User.
Record t : Type := mk {
  id : string;
  name : string;
  email : string;
  availableDays : number;
  createdAt : N;
  updatedAt : option N
}.
End User.

Module UserPayload.
Record t : Type := mk {
  name : string;
  email : string;
  availableDays : option number
}.
End UserPayload.

Module Leave.
Record t : Type := mk {
  id : string;
  userId : string;
  startDate : number;
  endDate : number;
  days : number;
  status : LeaveStatus;
  createdAt : N;
  updatedAt : option N
}.
End Leave.

Module LeavePayload.
Record t : Type := mk {
  startDate : number;
  endDate : number
}.
End LeavePayload.

Record State : Type := mkState {
  leaveStorage : gmap string Leave.t;
  userStorage : gmap string User.t
}.

Definition emptyState : State :=
  {| leaveStorage := ∅; userStorage := ∅ |}.

Section Calls.
Context {host : Host}.

Definition getUser (id : string) (st : State) : Result User.t :=
  if negb (isValidUUID id) then Err "Please enter a valid User ID!"
  else
    match userStorage st !! id with
    | Some userData => Ok userData
    | None => Err ("User with ID " +:+ id +:+ " not found!")
    end.

Definition addUser (env : Env) (payload : UserPayload.t) (st : State)
  : Result User.t * State :=
  if falsy (UserPayload.name payload) || falsy (UserPayload.email payload)
  then (Err "Name and Email are required. Please provide valid data.", st)
  else
    let users := values (userStorage st) in
    let isUserExists :=
      List.find
        (fun user => String.eqb (User.email user) (UserPayload.email payload))
        users in
    match isUserExists with
    | Some _ => (Err "User with this email already exists!", st)
    | None =>
      let availableDays :=
        default (ofZ DEFAULT_AVAILABLE_DAYS)
                (UserPayload.availableDays payload) in
      let user :=
        {| User.id := uuidv4 env;
           User.createdAt := ic_time env;
           User.updatedAt := None;
           User.name := UserPayload.name payload;
           User.email := UserPayload.email payload;
           User.availableDays := availableDays |} in
      (Ok user,
       {| leaveStorage := leaveStorage st;
          userStorage := <[User.id user := user]> (userStorage st) |})
    end.

Definition updateUser (env : Env) (id : string) (payload : UserPayload.t)
    (st : State) : Result User.t * State :=
  if negb (isValidUUID id) then (Err "Please enter a valid User ID!", st)
  else if falsy (UserPayload.name payload) || falsy (UserPayload.email payload)
  then (Err "Name and Email cannot be empty. Please provide valid data.", st)
  else
    match userStorage st !! id with
    | Some user =>
      let updatedUser :=
        {| User.id := User.id user;
           User.createdAt := User.createdAt user;
           User.name := UserPayload.name payload;
           User.email := UserPayload.email payload;
           User.availableDays :=
             default (User.availableDays user)
                     (UserPayload.availableDays payload);
           User.updatedAt := Some (ic_time env) |} in
      (Ok updatedUser,
       {| leaveStorage := leaveStorage st;
          userStorage := <[User.id user := updatedUser]> (userStorage st) |})
    | None => (Err ("User with ID " +:+ id +:+ " not found!"), st)
    end.

Definition deleteUser (id : string) (st : State) : Result User.t * State :=
  if negb (isValidUUID id) then (Err "Please enter a valid User ID!", st)
  else
    match userStorage st !! id with
    | Some deletedUser =>
      (Ok deletedUser,
       {| leaveStorage := leaveStorage st;
          userStorage := delete id (userStorage st) |})
    | None => (Err ("User with ID " +:+ id +:+ " not found!"), st)
    end.

Definition updateUsersAvailableDays (env : Env) (userId : string)
    (leaveDays : number) (operation : Operation) (st : State)
  : Result User.t * State :=
  if negb (isValidUUID userId) then (Err "Please enter a valid User ID!", st)
  else
    match getUser userId st with
    | Err _ =>
      (Err "Could not update the user's leave status. Something went wrong!",
       st)
    | Ok user =>
      if falsyNumber (User.availableDays user)
      then
        (Err "Could not update the user's leave status. Something went wrong!",
         st)
      else
        let availableDays :=
          match operation with
          | ADD => add (User.availableDays user) leaveDays
          | SUBTRACT => sub (User.availableDays user) leaveDays
          end in
        updateUser env userId
          {| UserPayload.name := User.name user;
             UserPayload.email := User.email user;
             UserPayload.availableDays := Some availableDays |}
          st
    end.

Definition isYear (x : number) (current : Z) : bool :=
  match timeValue x with
  | Some t =>
    match getFullYear t with
    | Some y => y =? current
    | None => false
    end
  | None => false
  end.

Definition overlaps (startDate endDate : number) (currentLeave : Leave.t)
  : bool :=
  negb (lt endDate (Leave.startDate currentLeave)
        || lt (Leave.endDate currentLeave) startDate).

Definition requestLeave (env : Env) (userId : string)
    (payload : LeavePayload.t) (st : State) : Result Leave.t * State :=
  if negb (isValidUUID userId) then (Err "Please enter a valid User ID!", st)
  else
    match getUser userId st with
    | Err _ => (Err "User with the given ID was not found.", st)
    | Ok user =>
      let startDate := LeavePayload.startDate payload in
      let endDate := LeavePayload.endDate payload in
      if ge startDate endDate
      then (Err "Start date must be before end date.", st)
      else if negb (isYear startDate (currentYear env))
              || negb (isYear endDate (currentYear env))
      then (Err "Leave period should be in the current calendar year.", st)
      else
        let diffDays := findDiffInDays startDate endDate in
        if lt diffDays (ofZ 1)
        then (Err (String "010" "Leave should be at least one day."), st)
        else if lt (User.availableDays user) diffDays
        then (Err "You are exceeding your available days for leave.", st)
        else
          let leaves :=
            List.filter
              (fun leave => String.eqb (Leave.userId leave) userId)
              (values (leaveStorage st)) in
          let isOverlapping := existsb (overlaps startDate endDate) leaves in
          if isOverlapping
          then
            (Err "The chosen leave period overlaps with an existing leave.",
             st)
          else
            let leave :=
              {| Leave.id := uuidv4 env;
                 Leave.userId := userId;
                 Leave.createdAt := ic_time env;
                 Leave.updatedAt := None;
                 Leave.status := PENDING;
                 Leave.days := diffDays;
                 Leave.startDate := startDate;
                 Leave.endDate := endDate |} in
            let st1 :=
              {| leaveStorage := <[Leave.id leave := leave]> (leaveStorage st);
                 userStorage := userStorage st |} in
            let st2 :=
              snd (updateUsersAvailableDays env userId diffDays SUBTRACT st1) in
            (Ok leave, st2)
    end.

Definition updateLeave (env : Env) (id : string) (payload : LeavePayload.t)
    (st : State) : Result Leave.t * State :=
  if negb (isValidUUID id) then (Err "Please enter a valid Leave ID!", st)
  else
    match leaveStorage st !! id with
    | Some leave =>
      let diffDays :=
        findDiffInDays (LeavePayload.startDate payload)
                       (LeavePayload.endDate payload) in
      if lt diffDays (ofZ 1)
      then (Err "Leave should be at least one day.", st)
      else
        let updatedLeave :=
          {| Leave.id := Leave.id leave;
             Leave.userId := Leave.userId leave;
             Leave.status := Leave.status leave;
             Leave.createdAt := Leave.createdAt leave;
             Leave.startDate := LeavePayload.startDate payload;
             Leave.endDate := LeavePayload.endDate payload;
             Leave.days := diffDays;
             Leave.updatedAt := Some (ic_time env) |} in
        (Ok updatedLeave,
         {| leaveStorage :=
              <[Leave.id leave := updatedLeave]> (leaveStorage st);
            userStorage := userStorage st |})
    | None => (Err ("Leave with ID " +:+ id +:+ " not found!"), st)
    end.

Definition deleteLeave (id : string) (st : State) : Result Leave.t * State :=
  if negb (isValidUUID id) then (Err "Please enter a valid Leave ID!", st)
  else
    match leaveStorage st !! id with
    | Some deletedLeave =>
      (Ok deletedLeave,
       {| leaveStorage := delete id (leaveStorage st);
          userStorage := userStorage st |})
    | None => (Err ("Leave with ID " +:+ id +:+ " not found!"), st)
    end.

Definition updateLeaveStatus (env : Env) (id : string) (status : LeaveStatus)
    (st : State) : Result Leave.t * State :=
  if negb (isValidUUID id) then (Err "Please enter a valid Leave ID!", st)
  else
    match leaveStorage st !! id with
    | Some leave =>
      let updatedLeave :=
        {| Leave.id := Leave.id leave;
           Leave.userId := Leave.userId leave;
           Leave.startDate := Leave.startDate leave;
           Leave.endDate := Leave.endDate leave;
           Leave.days := Leave.days leave;
           Leave.createdAt := Leave.createdAt leave;
           Leave.status := status;
           Leave.updatedAt := Some (ic_time env) |} in
      let st1 :=
        {| leaveStorage :=
             <[Leave.id leave := updatedLeave]> (leaveStorage st);
           userStorage := userStorage st |} in
      let st2 :=
        if String.eqb status REJECTED
        then snd (updateUsersAvailableDays env (Leave.userId leave)
                                           (Leave.days leave) ADD st1)
        else snd (updateUsersAvailableDays env (Leave.userId leave)
                                           (Leave.days leave) SUBTRACT st1) in
      (Ok updatedLeave, st2)
    | None => (Err ("Leave with ID " +:+ id +:+ " not found!"), st)
    end.

Inductive Call : Type :=
| CallAddUser (payload : UserPayload.t)
| CallUpdateUser (id : string) (payload : UserPayload.t)
| CallDeleteUser (id : string)
| CallRequestLeave (userId : string) (payload : LeavePayload.t)
| CallUpdateLeave (id : string) (payload : LeavePayload.t)
| CallDeleteLeave (id : string)
| CallUpdateLeaveStatus (id : string) (status : LeaveStatus).

Definition perform (env : Env) (c : Call) (st : State) : bool * State :=
  match c with
  | CallAddUser p => let r := addUser env p st in (isOk (fst r), snd r)
  | CallUpdateUser i p =>
    let r := updateUser env i p st in (isOk (fst r), snd r)
  | CallDeleteUser i => let r := deleteUser i st in (isOk (fst r), snd r)
  | CallRequestLeave u p =>
    let r := requestLeave env u p st in (isOk (fst r), snd r)
  | CallUpdateLeave i p =>
    let r := updateLeave env i p st in (isOk (fst r), snd r)
  | CallDeleteLeave i => let r := deleteLeave i st in (isOk (fst r), snd r)
  | CallUpdateLeaveStatus i s =>
    let r := updateLeaveStatus env i s st in (isOk (fst r), snd r)
  end.

Fixpoint run (calls : list (Env * Call)) (st : State) : State :=
  match calls with
  | [] => st
  | (env, c) :: rest => run rest (snd (perform env c st))
  end.

Fixpoint allOk (calls : list (Env * Call)) (st : State) : bool :=
  match calls with
  | [] => true
  | (env, c) :: rest =>
    fst (perform env c st) && allOk rest (snd (perform env c st))
  end.

End Calls.

Definition balanceOf (id : string) (st : State) : option number :=
  User.availableDays <$> userStorage st !! id.

Definition daysOf (id : string) (st : State) : option number :=
  Leave.days <$> leaveStorage st !! id.

End IEEE.

(** Scenarios over doubles, on the concrete host. *)

Definition newUser64 (name email : string) (balance : IEEE.number)
  : IEEE.UserPayload.t :=
  {| IEEE.UserPayload.name := name; IEEE.UserPayload.email := email;
     IEEE.UserPayload.availableDays := Some balance |}.

Definition range64 (startDate endDate : IEEE.number) : IEEE.LeavePayload.t :=
  {| IEEE.LeavePayload.startDate := startDate;
     IEEE.LeavePayload.endDate := endDate |}.

Definition demoRun64 (calls : list (Env * IEEE.Call)) : IEEE.State :=
  @IEEE.run demoHost calls IEEE.emptyState.

(** The largest finite double, 1.7976931348623157e308. *)
Definition MAX_VALUE : IEEE.number :=
  SpecFloat.S754_finite false 9007199254740991 971.

(** Ann joins with 2^53 + 2 days and asks for day 10 to day 11. *)
Definition annAsksOfMany : list (Env * IEEE.Call) :=
  [ (envWith idA 1,
     IEEE.CallAddUser
       (newUser64 "Ann" "ann@x.org" (IEEE.ofZ 9007199254740994)));
    (envWith idL 2,
     IEEE.CallRequestLeave idA
       (range64 (IEEE.ofZ (day 10)) (IEEE.ofZ (day 11)))) ].

(** Ann joins with 5 days and asks for days 10 to 13; the request is then
    edited to run from -MAX_VALUE to MAX_VALUE, rejected and approved. *)
Definition annEditsWide : list (Env * IEEE.Call) :=
  [ (envWith idA 1,
     IEEE.CallAddUser (newUser64 "Ann" "ann@x.org" (IEEE.ofZ 5)));
    (envWith idL 2,
     IEEE.CallRequestLeave idA
       (range64 (IEEE.ofZ (day 10)) (IEEE.ofZ (day 13))));
    (envWith idM 3,
     IEEE.CallUpdateLeave idL
       (range64 (SpecFloat.SFopp MAX_VALUE) MAX_VALUE));
    (envWith idM 4, IEEE.CallUpdateLeaveStatus idL REJECTED);
    (envWith idM 5, IEEE.CallUpdateLeaveStatus idL APPROVED) ].

(** * Properties *)

(** ** Duration *)

Lemma oneDay_pos : 0 < oneDay.
Proof. reflexivity. Qed.

(** [Math.round] of a quotient of integers, in integer arithmetic. *)
Lemma Math_round_quotient (n d : Z) :
  0 < d -> Math_round (inject_Z n / inject_Z d)%Q = round_div n d.
Proof.
  intros Hd. unfold Math_round, round_div.
  rewrite Zdiv_Qdiv. apply Qfloor_comp.
  assert (Hd' : ~ (inject_Z d == 0)%Q).
  { intros E. apply (inject_Z_injective d 0) in E. lia. }
  rewrite !inject_Z_plus, !inject_Z_mult.
  field; repeat split; exact Hd'.
Qed.

(** [round_div n d] is the integer nearest to n / d, a tie going up. *)
Lemma round_div_nearest (n d : Z) :
  0 < d ->
  2 * n - d < 2 * d * round_div n d <= 2 * n + d.
Proof.
  intros Hd. unfold round_div.
  pose proof (Z.div_mod (2 * n + d) (2 * d) ltac:(lia)) as E.
  pose proof (Z.mod_pos_bound (2 * n + d) (2 * d) ltac:(lia)) as B.
  lia.
Qed.

Lemma Qabs_quotient (x d : Z) :
  0 < d ->
  (Qabs (inject_Z x / inject_Z d) == inject_Z (Z.abs x) / inject_Z d)%Q.
Proof.
  intros Hd. unfold Qdiv.
  rewrite Qabs_Qmult, Qabs_Qinv.
  assert (E : (Qabs (inject_Z d) == inject_Z d)%Q).
  { apply Qabs_pos. change (inject_Z 0 <= inject_Z d)%Q.
    rewrite <- Zle_Qle. lia. }
  rewrite E.
  assert (F : Qabs (inject_Z x) = inject_Z (Z.abs x)) by reflexivity.
  rewrite F. reflexivity.
Qed.

Lemma findDiffInDays_round_div (startDate endDate : Z) :
  findDiffInDays startDate endDate
  = Z.max 1 (round_div (Z.abs (endDate - startDate)) oneDay).
Proof.
  unfold findDiffInDays. cbv zeta. f_equal.
  rewrite <- (Math_round_quotient _ _ oneDay_pos).
  unfold Math_round. apply Qfloor_comp.
  rewrite (Qabs_quotient _ _ oneDay_pos). reflexivity.
Qed.

Lemma findDiffInDays_ge_1 (startDate endDate : Z) :
  1 <= findDiffInDays startDate endDate.
Proof. unfold findDiffInDays. lia. Qed.

(** The exact quotient of a difference in the exact range stays below
    2^27 = 134217728 and, unless it is a tie k + 1/2, is at least
    1 / oneDay away from every tie.  A double below 2^27 is within
    2^-27 < 1 / oneDay of the number it rounds, so the double quotient lies
    on the same side of every tie. *)
Lemma quotient_off_ties (n : Z) :
  0 <= n <= MAX_EXACT ->
  n < 134217728 * oneDay
  /\ oneDay < 134217728
  /\ forall k,
       2 * n = (2 * k + 1) * oneDay
       \/ 2 <= Z.abs (2 * n - (2 * k + 1) * oneDay).
Proof.
  unfold MAX_EXACT, oneDay. intros Hn.
  split; [lia |]. split; [lia |].
  intros k.
  destruct (Z.eq_dec (2 * n) ((2 * k + 1) * (24 * 60 * 60 * 1000)));
    [by left | right; lia].
Qed.

(** C6, as amended.  For whole-number millisecond instants that are exact
    numbers (magnitude at most 2^53) with an exact difference, the computed
    duration is max (1, round (|end - start| / oneDay)) with
    oneDay = 86400000 and round the nearest integer, a tie going up; the
    quotient is below 2^27 and off every tie by at least 1 / oneDay, so the
    rounding of the double quotient does not change it; the duration does
    not depend on the order of the two instants; equal instants give 1. *)
Theorem findDiffInDays_spec (startDate endDate : Z) :
  exactNumber startDate ->
  exactNumber endDate ->
  exactNumber (endDate - startDate) ->
  findDiffInDays startDate endDate = duration_spec startDate endDate
  /\ oneDay = 24 * 60 * 60 * 1000
  /\ (let n := Z.abs (endDate - startDate) in
      2 * n - oneDay < 2 * oneDay * round_div n oneDay <= 2 * n + oneDay)
  /\ (let n := Z.abs (endDate - startDate) in
      n < 134217728 * oneDay
      /\ forall k,
           2 * n = (2 * k + 1) * oneDay
           \/ 2 <= Z.abs (2 * n - (2 * k + 1) * oneDay))
  /\ findDiffInDays startDate endDate = findDiffInDays endDate startDate
  /\ findDiffInDays startDate startDate = 1.
Proof.
  intros _ _ Hdiff. unfold exactNumber in Hdiff.
  destruct (quotient_off_ties (Z.abs (endDate - startDate)))
    as (Hlt & _ & Hties); [lia |].
  split; [apply findDiffInDays_round_div |]. split; [reflexivity |].
  split; [apply round_div_nearest, oneDay_pos |].
  split; [split; [exact Hlt | exact Hties] |].
  split.
  - rewrite !findDiffInDays_round_div.
    replace (Z.abs (startDate - endDate)) with (Z.abs (endDate - startDate))
      by lia.
    reflexivity.
  - rewrite findDiffInDays_round_div, Z.sub_diag. reflexivity.
Qed.

(** ** Listing a store *)

Lemma In_values {V : Type} (m : gmap string V) (v : V) :
  In v (values m) <-> exists k, m !! k = Some v.
Proof.
  unfold values. rewrite <- list_elem_of_In, list_elem_of_fmap. split.
  - intros [[k v'] [-> Hin]]. exists k. by apply elem_of_map_to_list.
  - intros [k Hk]. exists (k, v). split; [done |].
    by apply elem_of_map_to_list.
Qed.

Lemma find_values_None {V : Type} (f : V -> bool) (m : gmap string V) :
  List.find f (values m) = None
  <-> forall k v, m !! k = Some v -> f v = false.
Proof.
  split.
  - intros Hnone k v Hk. apply (find_none f _ Hnone).
    apply In_values. by exists k.
  - intros Hall. destruct (List.find f (values m)) as [v |] eqn:E; [| done].
    apply find_some in E as [Hin Hf].
    apply In_values in Hin as [k Hk].
    rewrite (Hall k v Hk) in Hf. discriminate.
Qed.

Lemma existsb_filter_values {V : Type} (f g : V -> bool) (m : gmap string V) :
  existsb f (List.filter g (values m)) = true
  <-> exists k v, m !! k = Some v /\ g v = true /\ f v = true.
Proof.
  rewrite existsb_exists. split.
  - intros [v [Hin Hf]]. apply filter_In in Hin as [Hin Hg].
    apply In_values in Hin as [k Hk]. by exists k, v.
  - intros (k & v & Hk & Hg & Hf). exists v. split; [| done].
    apply filter_In. split; [| done]. apply In_values. by exists k.
Qed.

Section Properties.
Context {host : Host}.

(** *** The balance adjustment *)

Lemma updateUser_stored env id p st u :
  isValidUUID id = true ->
  falsy (UserPayload.name p) = false ->
  falsy (UserPayload.email p) = false ->
  userStorage st !! id = Some u ->
  updateUser env id p st
  = (Ok {| User.id := User.id u;
           User.createdAt := User.createdAt u;
           User.name := UserPayload.name p;
           User.email := UserPayload.email p;
           User.availableDays :=
             default (User.availableDays u) (UserPayload.availableDays p);
           User.updatedAt := Some (ic_time env) |},
     {| leaveStorage := leaveStorage st;
        userStorage :=
          <[User.id u :=
              {| User.id := User.id u;
                 User.createdAt := User.createdAt u;
                 User.name := UserPayload.name p;
                 User.email := UserPayload.email p;
                 User.availableDays :=
                   default (User.availableDays u)
                           (UserPayload.availableDays p);
                 User.updatedAt := Some (ic_time env) |}]>
            (userStorage st) |}).
Proof.
  intros Hid Hn He Hu. unfold updateUser.
  rewrite Hid, Hn, He, Hu. reflexivity.
Qed.

(** A stored, well-formed owner with a balance other than 0 gets the
    adjusted balance. *)
Lemma updateUsersAvailableDays_applied env userId leaveDays operation st u :
  wfUser userId u ->
  userStorage st !! userId = Some u ->
  User.availableDays u <> 0 ->
  updateUsersAvailableDays env userId leaveDays operation st
  = (Ok (withBalance env
           (adjusted operation (User.availableDays u) leaveDays) u),
     {| leaveStorage := leaveStorage st;
        userStorage :=
          <[userId :=
              withBalance env
                (adjusted operation (User.availableDays u) leaveDays) u]>
            (userStorage st) |}).
Proof.
  intros (Hid & Hvalid & Hn & He) Hu Hne. subst userId.
  unfold updateUsersAvailableDays, getUser. rewrite Hvalid, Hu. simpl.
  destruct (Z.eqb_spec (User.availableDays u) 0) as [E | _]; [done |].
  rewrite (updateUser_stored env _ _ st u Hvalid); [| done | done | done].
  unfold withBalance, adjusted. simpl.
  destruct operation; reflexivity.
Qed.

(** An absent owner, or one whose balance is 0, is left alone. *)
Lemma updateUsersAvailableDays_skipped env userId leaveDays operation st :
  userStorage st !! userId = None
  \/ (exists u, userStorage st !! userId = Some u
                /\ User.availableDays u = 0) ->
  snd (updateUsersAvailableDays env userId leaveDays operation st) = st.
Proof.
  intros H. unfold updateUsersAvailableDays, getUser.
  destruct (isValidUUID userId); simpl; [| done].
  destruct H as [Hu | (u & Hu & Hz)]; rewrite Hu; [done |].
  rewrite Hz. reflexivity.
Qed.


(** *** Stored records are well formed in every reachable state *)

Lemma updateUser_wf env id p st :
  wfState st -> wfState (snd (updateUser env id p st)).
Proof.
  intros [Hu Hl]. unfold updateUser.
  destruct (isValidUUID id) eqn:Hid; simpl; [| done].
  destruct (falsy (UserPayload.name p)) eqn:Hn; simpl; [done |].
  destruct (falsy (UserPayload.email p)) eqn:He; simpl; [done |].
  destruct (userStorage st !! id) as [u |] eqn:E; simpl; [| done].
  destruct (Hu id u E) as (Hk & _).
  split; [| done]. simpl.
  apply map_Forall_insert_2; [| done].
  rewrite Hk. repeat split; done.
Qed.

Lemma updateUsersAvailableDays_wf env userId leaveDays operation st :
  wfState st ->
  wfState (snd (updateUsersAvailableDays env userId leaveDays operation st)).
Proof.
  intros Hwf. unfold updateUsersAvailableDays.
  destruct (isValidUUID userId); simpl; [| done].
  destruct (getUser userId st) as [u | msg]; [| done].
  destruct (User.availableDays u =? 0); [done |].
  by apply updateUser_wf.
Qed.

Lemma addUser_wf env p st :
  isValidUUID (uuidv4 env) = true ->
  wfState st -> wfState (snd (addUser env p st)).
Proof.
  intros Hfresh [Hu Hl]. unfold addUser.
  destruct (falsy (UserPayload.name p)) eqn:Hn; simpl; [done |].
  destruct (falsy (UserPayload.email p)) eqn:He; simpl; [done |].
  destruct (List.find _ _); simpl; [done |].
  split; [| done]. simpl.
  apply map_Forall_insert_2; [| done]. repeat split; done.
Qed.

Lemma deleteUser_wf id st :
  wfState st -> wfState (snd (deleteUser id st)).
Proof.
  intros [Hu Hl]. unfold deleteUser.
  destruct (isValidUUID id); simpl; [| done].
  destruct (userStorage st !! id); simpl; [| done].
  split; [| done]. simpl. by apply map_Forall_delete.
Qed.

Lemma requestLeave_wf env userId p st :
  isValidUUID (uuidv4 env) = true ->
  wfState st -> wfState (snd (requestLeave env userId p st)).
Proof.
  intros Hfresh Hwf. unfold requestLeave.
  destruct (isValidUUID userId) eqn:Hid; simpl; [| done].
  destruct (getUser userId st) as [u | msg]; [| done].
  destruct (_ >=? _); [done |].
  destruct (negb _ || negb _); [done |].
  destruct (_ <? 1); [done |].
  destruct (_ <? _); [done |].
  destruct (existsb _ _); [done |]. simpl.
  apply updateUsersAvailableDays_wf.
  destruct Hwf as [Hu Hl]. split; [done |]. simpl.
  apply map_Forall_insert_2; [| done].
  repeat split; try done. apply findDiffInDays_ge_1.
Qed.

Lemma updateLeave_wf env id p st :
  wfState st -> wfState (snd (updateLeave env id p st)).
Proof.
  intros [Hu Hl]. unfold updateLeave.
  destruct (isValidUUID id); simpl; [| done].
  destruct (leaveStorage st !! id) as [l |] eqn:E; [| done].
  destruct (_ <? 1); [done |]. simpl.
  destruct (Hl id l E) as (Hk & Hv & Ho & _).
  split; [done |]. simpl.
  apply map_Forall_insert_2; [| done].
  rewrite Hk. repeat split; try done. apply findDiffInDays_ge_1.
Qed.

Lemma deleteLeave_wf id st :
  wfState st -> wfState (snd (deleteLeave id st)).
Proof.
  intros [Hu Hl]. unfold deleteLeave.
  destruct (isValidUUID id); simpl; [| done].
  destruct (leaveStorage st !! id); simpl; [| done].
  split; [done |]. simpl. by apply map_Forall_delete.
Qed.

Lemma updateLeaveStatus_wf env id status st :
  wfState st -> wfState (snd (updateLeaveStatus env id status st)).
Proof.
  intros [Hu Hl]. unfold updateLeaveStatus.
  destruct (isValidUUID id); simpl; [| done].
  destruct (leaveStorage st !! id) as [l |] eqn:E; [| done]. simpl.
  destruct (Hl id l E) as (Hk & Hv & Ho & Hd).
  assert (Hwf1 : wfState
    {| leaveStorage :=
         <[Leave.id l := withStatus env status l]> (leaveStorage st);
       userStorage := userStorage st |}).
  { split; [done |]. simpl. apply map_Forall_insert_2; [| done].
    rewrite Hk. repeat split; done. }
  destruct (String.eqb status REJECTED);
    by apply updateUsersAvailableDays_wf.
Qed.

Lemma perform_wf env c st :
  isValidUUID (uuidv4 env) = true ->
  wfState st -> wfState (snd (perform env c st)).
Proof.
  intros Hfresh Hwf. destruct c; simpl.
  - by apply addUser_wf.
  - by apply updateUser_wf.
  - by apply deleteUser_wf.
  - by apply requestLeave_wf.
  - by apply updateLeave_wf.
  - by apply deleteLeave_wf.
  - by apply updateLeaveStatus_wf.
Qed.

Lemma emptyState_wf : wfState emptyState.
Proof. split; apply map_Forall_empty. Qed.

Lemma reachable_wf st : reachable st -> wfState st.
Proof.
  induction 1 as [| st env c _ IH Hfresh].
  - apply emptyState_wf.
  - by apply perform_wf.
Qed.

(** Running calls whose generated identifiers are valid stays within the
    reachable states. *)
Lemma reachable_run calls st :
  reachable st ->
  forallb (fun ec => isValidUUID (uuidv4 (fst ec))) calls = true ->
  reachable (run calls st).
Proof.
  revert st. induction calls as [| [env c] rest IH]; intros st Hst Hall.
  - exact Hst.
  - simpl in Hall. apply andb_prop in Hall as [Hfresh Hrest].
    simpl. apply IH; [| exact Hrest].
    by apply reachable_call.
Qed.

(** *** Creating a request *)

Lemma no_overlap_existsb userId startDate endDate st :
  (forall k l,
      leaveStorage st !! k = Some l -> Leave.userId l = userId ->
      endDate < Leave.startDate l \/ startDate > Leave.endDate l) ->
  existsb (overlaps startDate endDate)
    (List.filter (fun leave => String.eqb (Leave.userId leave) userId)
                 (values (leaveStorage st))) = false.
Proof.
  intros Hfree.
  destruct (existsb _ _) eqn:E; [| done].
  apply existsb_filter_values in E as (k & l & Hk & Hown & Hov).
  apply String.eqb_eq in Hown.
  unfold overlaps in Hov. apply negb_true_iff, orb_false_iff in Hov.
  destruct Hov as [H1 H2].
  apply Z.ltb_ge in H1. rewrite Z.gtb_ltb in H2. apply Z.ltb_ge in H2.
  destruct (Hfree k l Hk Hown); lia.
Qed.

Lemma overlap_existsb userId startDate endDate st k l :
  leaveStorage st !! k = Some l -> Leave.userId l = userId ->
  ~ (Leave.endDate l < startDate \/ Leave.startDate l > endDate) ->
  existsb (overlaps startDate endDate)
    (List.filter (fun leave => String.eqb (Leave.userId leave) userId)
                 (values (leaveStorage st))) = true.
Proof.
  intros Hk Hown Hov. apply existsb_filter_values.
  exists k, l. split; [done |]. split; [by apply String.eqb_eq |].
  unfold overlaps. apply negb_true_iff, orb_false_iff.
  rewrite Z.gtb_ltb. split; apply Z.ltb_ge; lia.
Qed.

(** C2, as amended.  For a stored user whose balance B is a whole number
    of at most 2^53 and a payload whose computed duration D satisfies
    1 <= D <= B and which passes the date-ordering, current-year and overlap
    checks, requestLeave returns Ok, stores a new request with status
    PENDING and days = D, and leaves the user's balance at exactly B - D. *)
Theorem requestLeave_debits env userId payload st u B D :
  reachable st ->
  userStorage st !! userId = Some u ->
  User.availableDays u = B ->
  findDiffInDays (LeavePayload.startDate payload)
                 (LeavePayload.endDate payload) = D ->
  1 <= D <= B ->
  B <= MAX_EXACT ->
  LeavePayload.startDate payload < LeavePayload.endDate payload ->
  getFullYear (LeavePayload.startDate payload) = Some (currentYear env) ->
  getFullYear (LeavePayload.endDate payload) = Some (currentYear env) ->
  (forall k l,
      leaveStorage st !! k = Some l -> Leave.userId l = userId ->
      LeavePayload.endDate payload < Leave.startDate l
      \/ LeavePayload.startDate payload > Leave.endDate l) ->
  exists leave st',
    requestLeave env userId payload st = (Ok leave, st')
    /\ leave = {| Leave.id := uuidv4 env;
                  Leave.userId := userId;
                  Leave.startDate := LeavePayload.startDate payload;
                  Leave.endDate := LeavePayload.endDate payload;
                  Leave.days := D;
                  Leave.status := PENDING;
                  Leave.createdAt := ic_time env;
                  Leave.updatedAt := None |}
    /\ leaveStorage st' = <[uuidv4 env := leave]> (leaveStorage st)
    /\ userStorage st'
       = <[userId := withBalance env (B - D) u]> (userStorage st)
    /\ balanceOf userId st' = Some (B - D).
Proof.
  intros Hreach Hu HB HD Hrange _ Horder Hys Hye Hfree.
  pose proof (reachable_wf st Hreach) as [Hwfu _].
  pose proof (Hwfu userId u Hu) as Hwf.
  pose proof Hwf as (_ & Hvalid & _).
  unfold requestLeave, getUser. rewrite Hvalid, Hu. simpl.
  rewrite Z.geb_leb.
  destruct (Z.leb_spec (LeavePayload.endDate payload)
                       (LeavePayload.startDate payload)); [lia |].
  rewrite Hys, Hye. simpl. rewrite Z.eqb_refl. simpl.
  rewrite HD, HB.
  destruct (Z.ltb_spec D 1); [lia |].
  destruct (Z.ltb_spec B D); [lia |].
  rewrite (no_overlap_existsb _ _ _ _ Hfree).
  rewrite (updateUsersAvailableDays_applied env userId D SUBTRACT _ u Hwf);
    [| done | lia].
  simpl. rewrite HB.
  eexists _, _. split; [reflexivity |].
  split; [reflexivity |]. split; [reflexivity |]. split; [reflexivity |].
  unfold balanceOf. simpl. by rewrite lookup_insert_eq.
Qed.

(** C7. For a stored user with balance B and a payload whose computed
    duration D exceeds B, the earlier creation checks passing, requestLeave
    returns the insufficient-balance error and leaves both stores as they
    were: no request is stored and the balance stays B. *)
Theorem requestLeave_insufficient env userId payload st u B D :
  isValidUUID userId = true ->
  userStorage st !! userId = Some u ->
  User.availableDays u = B ->
  findDiffInDays (LeavePayload.startDate payload)
                 (LeavePayload.endDate payload) = D ->
  D > B ->
  LeavePayload.startDate payload < LeavePayload.endDate payload ->
  getFullYear (LeavePayload.startDate payload) = Some (currentYear env) ->
  getFullYear (LeavePayload.endDate payload) = Some (currentYear env) ->
  requestLeave env userId payload st
  = (Err "You are exceeding your available days for leave.", st)
  /\ balanceOf userId (snd (requestLeave env userId payload st)) = Some B.
Proof.
  intros Hvalid Hu HB HD Hgt Horder Hys Hye.
  assert (E : requestLeave env userId payload st
              = (Err "You are exceeding your available days for leave.", st)).
  { unfold requestLeave, getUser. rewrite Hvalid, Hu. simpl.
    rewrite Z.geb_leb.
    destruct (Z.leb_spec (LeavePayload.endDate payload)
                         (LeavePayload.startDate payload)); [lia |].
    rewrite Hys, Hye. simpl. rewrite Z.eqb_refl. simpl.
    rewrite HD, HB.
    destruct (Z.ltb_spec D 1).
    { pose proof (findDiffInDays_ge_1 (LeavePayload.startDate payload)
                                      (LeavePayload.endDate payload)). lia. }
    destruct (Z.ltb_spec B D); [done | lia]. }
  split; [exact E |].
  rewrite E. unfold balanceOf. simpl. by rewrite Hu, <- HB.
Qed.

(** Every error return of requestLeave leaves the state as it was. *)
Lemma requestLeave_Err_unchanged env userId payload st :
  isOk (fst (requestLeave env userId payload st)) = false ->
  snd (requestLeave env userId payload st) = st.
Proof.
  unfold requestLeave.
  destruct (isValidUUID userId); simpl; [| done].
  destruct (getUser userId st) as [u | msg]; [| done].
  destruct (_ >=? _); [done |].
  destruct (negb _ || negb _); [done |].
  destruct (_ <? 1); [done |].
  destruct (_ <? _); [done |].
  destruct (existsb _ _); [done |]. simpl. discriminate.
Qed.

Lemma isYear_same (current : Z) : isYear (Some current) current = true.
Proof. simpl. apply Z.eqb_refl. Qed.

Lemma isYear_other (year : option Z) (current : Z) :
  year <> Some current -> isYear year current = false.
Proof.
  destruct year as [y |]; simpl; [| done].
  intros Hne. apply Z.eqb_neq. intros ->. by apply Hne.
Qed.

(** C5, as amended.  When the user already owns a request with range
    [s1, e1] and the new range [s2, e2] satisfies
    NOT (e1 < s2 OR s1 > e2), shared boundary included, requestLeave
    stores nothing and returns the error of the first check that fails, in
    the order of the code: the identifier is not a valid UUID; no user is
    stored under it; start >= end; a date outside the current year;
    availableDays < duration; and, when all of these pass, the overlap
    error. *)
Theorem requestLeave_overlap env userId payload st k l :
  leaveStorage st !! k = Some l ->
  Leave.userId l = userId ->
  ~ (Leave.endDate l < LeavePayload.startDate payload
     \/ Leave.startDate l > LeavePayload.endDate payload) ->
  snd (requestLeave env userId payload st) = st
  /\ (isValidUUID userId = false ->
      fst (requestLeave env userId payload st)
      = Err "Please enter a valid User ID!")
  /\ (isValidUUID userId = true ->
      userStorage st !! userId = None ->
      fst (requestLeave env userId payload st)
      = Err "User with the given ID was not found.")
  /\ (forall u,
        isValidUUID userId = true ->
        userStorage st !! userId = Some u ->
        (LeavePayload.startDate payload >= LeavePayload.endDate payload ->
         fst (requestLeave env userId payload st)
         = Err "Start date must be before end date.")
        /\ (~ LeavePayload.startDate payload >= LeavePayload.endDate payload ->
            getFullYear (LeavePayload.startDate payload)
            <> Some (currentYear env)
            \/ getFullYear (LeavePayload.endDate payload)
               <> Some (currentYear env) ->
            fst (requestLeave env userId payload st)
            = Err "Leave period should be in the current calendar year.")
        /\ (~ LeavePayload.startDate payload >= LeavePayload.endDate payload ->
            getFullYear (LeavePayload.startDate payload)
            = Some (currentYear env) ->
            getFullYear (LeavePayload.endDate payload)
            = Some (currentYear env) ->
            User.availableDays u
            < findDiffInDays (LeavePayload.startDate payload)
                             (LeavePayload.endDate payload) ->
            fst (requestLeave env userId payload st)
            = Err "You are exceeding your available days for leave.")
        /\ (~ LeavePayload.startDate payload >= LeavePayload.endDate payload ->
            getFullYear (LeavePayload.startDate payload)
            = Some (currentYear env) ->
            getFullYear (LeavePayload.endDate payload)
            = Some (currentYear env) ->
            ~ User.availableDays u
              < findDiffInDays (LeavePayload.startDate payload)
                               (LeavePayload.endDate payload) ->
            fst (requestLeave env userId payload st)
            = Err "The chosen leave period overlaps with an existing leave.")).
Proof.
  intros Hk Hown Hov.
  pose proof (overlap_existsb userId _ _ st k l Hk Hown Hov) as Hex.
  pose proof (findDiffInDays_ge_1 (LeavePayload.startDate payload)
                                  (LeavePayload.endDate payload)) as Hge.
  split; [| split; [| split]].
  - unfold requestLeave.
    destruct (isValidUUID userId); simpl; [| done].
    destruct (getUser userId st) as [u | msg]; [| done].
    destruct (_ >=? _); [done |].
    destruct (negb _ || negb _); [done |].
    destruct (_ <? 1); [done |].
    destruct (_ <? _); [done |].
    by rewrite Hex.
  - intros Hbad. unfold requestLeave. by rewrite Hbad.
  - intros Hvalid Hu. unfold requestLeave, getUser. by rewrite Hvalid, Hu.
  - intros u Hvalid Hu.
    unfold requestLeave, getUser. rewrite Hvalid, Hu. simpl.
    rewrite Z.geb_leb.
    destruct (Z.leb_spec (LeavePayload.endDate payload)
                         (LeavePayload.startDate payload)) as [Hord | Hord].
    { split; [done |]. repeat split; intros; lia. }
    split; [intros; lia |].
    split; [| split].
    + intros _ [Hy | Hy].
      * by rewrite (isYear_other _ _ Hy).
      * rewrite (isYear_other _ _ Hy).
        by destruct (isYear (getFullYear (LeavePayload.startDate payload))
                            (currentYear env)).
    + intros _ Hys Hye Hlow. rewrite Hys, Hye, isYear_same. simpl.
      destruct (Z.ltb_spec (findDiffInDays (LeavePayload.startDate payload)
                                           (LeavePayload.endDate payload)) 1);
        [lia |].
      destruct (Z.ltb_spec (User.availableDays u)
                  (findDiffInDays (LeavePayload.startDate payload)
                                  (LeavePayload.endDate payload)));
        [done | lia].
    + intros _ Hys Hye Hfit. rewrite Hys, Hye, isYear_same. simpl.
      destruct (Z.ltb_spec (findDiffInDays (LeavePayload.startDate payload)
                                           (LeavePayload.endDate payload)) 1);
        [lia |].
      destruct (Z.ltb_spec (User.availableDays u)
                  (findDiffInDays (LeavePayload.startDate payload)
                                  (LeavePayload.endDate payload)));
        [lia |].
      by rewrite Hex.
Qed.

(** *** Status transitions *)

Lemma updateLeaveStatus_unfold env id status st l :
  isValidUUID id = true ->
  leaveStorage st !! id = Some l ->
  updateLeaveStatus env id status st
  = (Ok (withStatus env status l),
     snd (updateUsersAvailableDays env (Leave.userId l) (Leave.days l)
            (settlement status)
            {| leaveStorage :=
                 <[Leave.id l := withStatus env status l]> (leaveStorage st);
               userStorage := userStorage st |})).
Proof.
  intros Hvalid Hl. unfold updateLeaveStatus, settlement.
  rewrite Hvalid, Hl. simpl.
  destruct (String.eqb status REJECTED); reflexivity.
Qed.

(** A stored owner with a balance other than 0 is credited on REJECTED and
    debited on every other target status. *)
Lemma updateLeaveStatus_settled env id status st l u :
  wfState st ->
  leaveStorage st !! id = Some l ->
  userStorage st !! Leave.userId l = Some u ->
  User.availableDays u <> 0 ->
  updateLeaveStatus env id status st
  = (Ok (withStatus env status l),
     {| leaveStorage := <[id := withStatus env status l]> (leaveStorage st);
        userStorage :=
          <[Leave.userId l :=
              withBalance env
                (adjusted (settlement status)
                          (User.availableDays u) (Leave.days l)) u]>
            (userStorage st) |}).
Proof.
  intros [Hwfu Hwfl] Hl Hu Hne.
  destruct (Hwfl id l Hl) as (Hk & Hvalid & _).
  rewrite (updateLeaveStatus_unfold env id status st l Hvalid Hl).
  rewrite (updateUsersAvailableDays_applied env _ _ _ _ u);
    [| by apply Hwfu | done | done].
  simpl. by rewrite Hk.
Qed.

(** C10. For a stored request whose owner is absent from the user store,
    or whose owner's availableDays is 0, updateLeaveStatus returns Ok with
    the status overwritten, stores the updated request and leaves the user
    store unchanged: the balance adjustment returns an error, which is
    dropped, and the status write stays. *)
Theorem updateLeaveStatus_adjustment_dropped env id status st l :
  reachable st ->
  leaveStorage st !! id = Some l ->
  (userStorage st !! Leave.userId l = None
   \/ exists u, userStorage st !! Leave.userId l = Some u
                /\ User.availableDays u = 0) ->
  let st1 :=
    {| leaveStorage := <[id := withStatus env status l]> (leaveStorage st);
       userStorage := userStorage st |} in
  updateLeaveStatus env id status st = (Ok (withStatus env status l), st1)
  /\ Leave.status (withStatus env status l) = status
  /\ leaveStorage st1 !! id = Some (withStatus env status l)
  /\ userStorage st1 = userStorage st
  /\ isOk (fst (updateUsersAvailableDays env (Leave.userId l) (Leave.days l)
                  (settlement status) st1)) = false.
Proof.
  intros Hreach Hl Hskip st1.
  pose proof (reachable_wf st Hreach) as [_ Hwfl].
  destruct (Hwfl id l Hl) as (Hk & Hvalid & Hown & _).
  split; [| split; [done | split; [apply lookup_insert_eq | split; [done |]]]].
  - rewrite (updateLeaveStatus_unfold env id status st l Hvalid Hl).
    rewrite Hk. fold st1.
    by rewrite (updateUsersAvailableDays_skipped env _ _ _ st1 Hskip).
  - unfold updateUsersAvailableDays, getUser. rewrite Hown. simpl.
    destruct Hskip as [Hu | (u & Hu & Hz)]; rewrite Hu; [done |].
    by rewrite Hz.
Qed.

(** A rejection credits the request's days to a stored owner whose
    balance is not 0. *)
Lemma updateLeaveStatus_rejected_credits env id st l u :
  reachable st ->
  leaveStorage st !! id = Some l ->
  userStorage st !! Leave.userId l = Some u ->
  User.availableDays u <> 0 ->
  balanceOf (Leave.userId l) (snd (updateLeaveStatus env id REJECTED st))
  = Some (User.availableDays u + Leave.days l).
Proof.
  intros Hreach Hl Hu Hne.
  rewrite (updateLeaveStatus_settled env id REJECTED st l u
             (reachable_wf st Hreach) Hl Hu Hne).
  unfold balanceOf. simpl. by rewrite lookup_insert_eq.
Qed.

(** *** Balances stay non-negative under the calls that keep the floor *)

Lemma getUser_Ok id st u :
  getUser id st = Ok u ->
  isValidUUID id = true /\ userStorage st !! id = Some u.
Proof.
  unfold getUser. destruct (isValidUUID id); simpl; [| done].
  destruct (userStorage st !! id); [| done].
  intros [= ->]. done.
Qed.

Lemma nonneg_insert (m : gmap string User.t) i x :
  (forall k u, m !! k = Some u -> 0 <= User.availableDays u) ->
  0 <= User.availableDays x ->
  forall k u, <[i := x]> m !! k = Some u -> 0 <= User.availableDays u.
Proof.
  intros Hm Hx k u. rewrite lookup_insert_Some.
  intros [[_ <-] | [_ H]]; eauto.
Qed.

Lemma addUser_nonneg env p st :
  nonnegBalances st -> payloadNonneg p ->
  nonnegBalances (snd (addUser env p st)).
Proof.
  intros Hst Hp. unfold addUser.
  destruct (falsy _ || falsy _); [done |].
  destruct (List.find _ _); [done |]. simpl.
  unfold nonnegBalances. simpl. apply nonneg_insert; [done |]. simpl.
  unfold payloadNonneg in Hp.
  destruct (UserPayload.availableDays p); simpl; [done |].
  unfold DEFAULT_AVAILABLE_DAYS. lia.
Qed.

Lemma updateUser_nonneg env id p st :
  nonnegBalances st -> payloadNonneg p ->
  nonnegBalances (snd (updateUser env id p st)).
Proof.
  intros Hst Hp. unfold updateUser.
  destruct (isValidUUID id); simpl; [| done].
  destruct (falsy _ || falsy _); [done |].
  destruct (userStorage st !! id) as [u |] eqn:Hu; [| done]. simpl.
  unfold nonnegBalances. simpl. apply nonneg_insert; [done |]. simpl.
  unfold payloadNonneg in Hp.
  destruct (UserPayload.availableDays p); simpl; [done |].
  by apply (Hst id).
Qed.

Lemma updateUsersAvailableDays_nonneg env userId leaveDays operation st :
  nonnegBalances st ->
  (forall u, userStorage st !! userId = Some u ->
             0 <= adjusted operation (User.availableDays u) leaveDays) ->
  nonnegBalances
    (snd (updateUsersAvailableDays env userId leaveDays operation st)).
Proof.
  intros Hst Hadj. unfold updateUsersAvailableDays.
  destruct (isValidUUID userId); simpl; [| done].
  destruct (getUser userId st) as [u | msg] eqn:Hget; [| done].
  apply getUser_Ok in Hget as [_ Hu].
  destruct (User.availableDays u =? 0); [done |].
  apply updateUser_nonneg; [done |].
  unfold payloadNonneg. simpl.
  specialize (Hadj u Hu). by destruct operation.
Qed.

Lemma requestLeave_nonneg env userId p st :
  nonnegBalances st -> nonnegBalances (snd (requestLeave env userId p st)).
Proof.
  intros Hst. unfold requestLeave.
  destruct (isValidUUID userId); simpl; [| done].
  destruct (getUser userId st) as [u | msg] eqn:Hget; [| done].
  apply getUser_Ok in Hget as [_ Hu].
  destruct (_ >=? _); [done |].
  destruct (negb _ || negb _); [done |].
  destruct (_ <? 1); [done |].
  destruct (Z.ltb_spec (User.availableDays u)
              (findDiffInDays (LeavePayload.startDate p)
                              (LeavePayload.endDate p))); [done |].
  destruct (existsb _ _); [done |]. simpl.
  apply updateUsersAvailableDays_nonneg; [done |]. simpl.
  intros u' Hu'. rewrite Hu in Hu'. injection Hu' as <-. lia.
Qed.

Lemma updateLeaveStatus_nonneg env id status st :
  wfState st -> nonnegBalances st ->
  keepsFloor st (CallUpdateLeaveStatus id status) ->
  nonnegBalances (snd (updateLeaveStatus env id status st)).
Proof.
  intros [_ Hwfl] Hst Hkeep.
  destruct (isValidUUID id) eqn:Hvalid;
    [| unfold updateLeaveStatus; by rewrite Hvalid].
  destruct (leaveStorage st !! id) as [l |] eqn:Hl;
    [| unfold updateLeaveStatus; by rewrite Hvalid, Hl].
  rewrite (updateLeaveStatus_unfold env id status st l Hvalid Hl). simpl.
  apply updateUsersAvailableDays_nonneg; [done |]. simpl.
  intros u Hu. unfold settlement.
  destruct (Hwfl id l Hl) as (_ & _ & _ & Hdays).
  destruct (String.eqb_spec status REJECTED) as [-> | Hs]; simpl.
  - specialize (Hst _ _ Hu). lia.
  - destruct Hkeep as [-> | Hkeep]; [done |].
    specialize (Hkeep l u Hl Hu). lia.
Qed.

Lemma perform_nonneg env c st :
  wfState st -> nonnegBalances st -> keepsFloor st c ->
  nonnegBalances (snd (perform env c st)).
Proof.
  intros Hwf Hst Hkeep. destruct c; simpl.
  - by apply addUser_nonneg.
  - by apply updateUser_nonneg.
  - unfold deleteUser. destruct (isValidUUID id); simpl; [| done].
    destruct (userStorage st !! id); [| done]. simpl.
    intros k u. simpl. rewrite lookup_delete_Some. intros [_ H].
    by apply (Hst k).
  - by apply requestLeave_nonneg.
  - unfold updateLeave. destruct (isValidUUID id); simpl; [| done].
    destruct (leaveStorage st !! id); [| done].
    by destruct (_ <? 1).
  - unfold deleteLeave. destruct (isValidUUID id); simpl; [| done].
    by destruct (leaveStorage st !! id).
  - by apply updateLeaveStatus_nonneg.
Qed.

Lemma run_keeps_floor calls st :
  wfState st -> nonnegBalances st -> floorKept calls st ->
  nonnegBalances (run calls st).
Proof.
  revert st. induction calls as [| [env c] rest IH]; intros st Hwf Hst Hk.
  - exact Hst.
  - destruct Hk as (Hfresh & Hkeep & Hrest). simpl.
    apply IH; [by apply perform_wf | by apply perform_nonneg | done].
Qed.

Lemma floorKeptExact_floorKept calls st :
  floorKeptExact calls st -> floorKept calls st.
Proof.
  revert st. induction calls as [| [env c] rest IH]; intros st H; [done |].
  destruct H as (Hfresh & Hkeep & _ & _ & Hrest).
  split; [done |]. split; [done |]. by apply IH.
Qed.

(** C1, as amended.  From the empty canister, availableDays >= 0 holds
    for every stored user after every sequence of calls that stays in the
    exact range (the numbers of every payload are whole numbers of
    magnitude at most 2^53, for dates also their difference, and so is every
    balance stored after every call) and in which each addUser and
    updateUser payload carries no negative availableDays and each
    updateLeaveStatus either has target REJECTED or charges a request whose
    days do not exceed its owner's balance. *)
Theorem availableDays_nonneg_kept calls :
  floorKeptExact calls emptyState -> nonnegBalances (run calls emptyState).
Proof.
  intros H. apply run_keeps_floor.
  - apply emptyState_wf.
  - intros k u Hk. simpl in Hk. by rewrite lookup_empty in Hk.
  - by apply floorKeptExact_floorKept.
Qed.

(** *** Emails *)

(** addUser keeps emails unique. *)
Lemma addUser_uniqueEmails env p st :
  uniqueEmails st -> uniqueEmails (snd (addUser env p st)).
Proof.
  intros Hst. unfold addUser.
  destruct (falsy _ || falsy _); [done |].
  destruct (List.find _ _) eqn:Hfind; [done |]. simpl.
  pose proof (proj1 (find_values_None _ _) Hfind) as Hnew.
  intros k1 k2 u1 u2. simpl.
  rewrite !lookup_insert_Some.
  intros [[<- <-] | [Hne1 H1]] [[<- <-] | [Hne2 H2]] He; simpl in He.
  - done.
  - specialize (Hnew k2 u2 H2). simpl in Hnew.
    apply String.eqb_neq in Hnew. congruence.
  - specialize (Hnew k1 u1 H1). simpl in Hnew.
    apply String.eqb_neq in Hnew. congruence.
  - by apply (Hst k1 k2 u1 u2).
Qed.

(** addUser refuses an email that is already stored. *)
Lemma addUser_duplicate_email env p st k u :
  userStorage st !! k = Some u ->
  User.email u = UserPayload.email p ->
  isOk (fst (addUser env p st)) = false /\ snd (addUser env p st) = st.
Proof.
  intros Hk He. unfold addUser.
  destruct (falsy _ || falsy _); [done |].
  destruct (List.find _ _) eqn:Hfind; [done |].
  pose proof (proj1 (find_values_None _ _) Hfind k u Hk) as Hnew.
  simpl in Hnew. apply String.eqb_neq in Hnew. done.
Qed.

(** *** Listing a user's requests *)

Lemma filter_same {A : Type} (f : A -> string) (xs : list A) :
  List.filter (fun x => String.eqb (f x) (f x)) xs = xs.
Proof.
  induction xs as [| x xs IH]; [done |].
  simpl. rewrite String.eqb_refl. by rewrite IH.
Qed.

(** For a valid identifier the filter keeps every stored request. *)
Lemma getUsersLeaveRequests_all userId st :
  isValidUUID userId = true ->
  getUsersLeaveRequests userId st = getLeaveRequests st.
Proof.
  intros Hvalid. unfold getUsersLeaveRequests, getLeaveRequests.
  rewrite Hvalid. simpl. by rewrite filter_same.
Qed.

End Properties.

(** * The statements on the concrete host *)

Lemma demo_reachable calls :
  forallb (fun ec => uuidShape 0 (uuidv4 (fst ec))) calls = true ->
  @reachable demoHost (demoRun calls).
Proof.
  intros Hall. apply (@reachable_run demoHost); [apply reachable_init |].
  exact Hall.
Qed.

(** C1, counterexample to the claim as stated.  Ann has 5 days and is
    charged 3 at creation; approving charges 3 again: every call returns Ok
    and the balance ends at -1. *)
Lemma availableDays_negative_after_approval :
  allOk (host := demoHost) (annAsks 5 10 13 ++ [approve 3]) emptyState = true
  /\ balanceOf idA (demoRun (annAsks 5 10 13 ++ [approve 3])) = Some (-1)
  /\ ~ @nonnegBalances (demoRun (annAsks 5 10 13 ++ [approve 3])).
Proof.
  split; [vm_compute; reflexivity |]. split; [vm_compute; reflexivity |].
  intros H.
  assert (E : userStorage (demoRun (annAsks 5 10 13 ++ [approve 3])) !! idA
              = Some (annWith (-1) (Some 3%N))) by (vm_compute; reflexivity).
  specialize (H _ _ E). simpl in H. lia.
Qed.

Lemma exactBalances_values st (us : list User.t) :
  values (userStorage st) = us ->
  Forall (fun u => exactNumber (User.availableDays u)) us ->
  exactBalances st.
Proof.
  intros E HF k u Hk. rewrite Forall_forall in HF. apply HF.
  rewrite <- E. apply list_elem_of_In, In_values. by exists k.
Qed.

(** A rejected request: every call keeps the floor and stays exact. *)
Lemma availableDays_nonneg_kept_witness :
  @floorKeptExact demoHost (annAsks 5 10 13 ++ [reject 3]) emptyState
  /\ nonnegBalances (demoRun (annAsks 5 10 13 ++ [reject 3])).
Proof.
  assert (H : @floorKeptExact demoHost (annAsks 5 10 13 ++ [reject 3])
                emptyState).
  { unfold annAsks, annJoins, reject.
    cbn [app floorKeptExact keepsFloor exactCall].
    split; [vm_compute; reflexivity |].
    split; [unfold payloadNonneg; simpl; lia |].
    split; [unfold exactUserPayload, exactNumber, MAX_EXACT; simpl; lia |].
    split.
    { apply (exactBalances_values _ [annWith 5 None]);
        [vm_compute; reflexivity |].
      repeat constructor. unfold exactNumber, MAX_EXACT. simpl. lia. }
    split; [vm_compute; reflexivity |]. split; [exact I |].
    split.
    { unfold exactLeavePayload, exactNumber, MAX_EXACT, range, day, oneDay.
      simpl. lia. }
    split.
    { apply (exactBalances_values _ [annWith 2 (Some 2%N)]);
        [vm_compute; reflexivity |].
      repeat constructor. unfold exactNumber, MAX_EXACT. simpl. lia. }
    split; [vm_compute; reflexivity |]. split; [by left |].
    split; [exact I |].
    split; [| exact I].
    apply (exactBalances_values _ [annWith 5 (Some 3%N)]);
      [vm_compute; reflexivity |].
    repeat constructor. unfold exactNumber, MAX_EXACT. simpl. lia. }
  split; [exact H |].
  exact (@availableDays_nonneg_kept demoHost _ H).
Defined.

(** Ann has 5 days and asks for 3. *)
Lemma requestLeave_debits_witness :
  exists leave st',
    @requestLeave demoHost (envWith idL 2) idA (range 10 13)
      (demoRun (annJoins 5)) = (Ok leave, st')
    /\ Leave.status leave = PENDING /\ Leave.days leave = 3
    /\ leaveStorage st' !! idL = Some leave
    /\ balanceOf idA st' = Some 2.
Proof.
  destruct (@requestLeave_debits demoHost (envWith idL 2) idA (range 10 13)
              (demoRun (annJoins 5)) (annWith 5 None) 5 3)
    as (leave & st' & E & Hleave & Hstore & _ & Hbal).
  - apply demo_reachable. vm_compute; reflexivity.
  - vm_compute; reflexivity.
  - reflexivity.
  - vm_compute; reflexivity.
  - lia.
  - unfold MAX_EXACT. lia.
  - vm_compute; reflexivity.
  - vm_compute; reflexivity.
  - vm_compute; reflexivity.
  - intros k l Hk.
    assert (Hempty : leaveStorage (demoRun (annJoins 5)) = ∅)
      by (vm_compute; reflexivity).
    rewrite Hempty, lookup_empty in Hk. discriminate.
  - exists leave, st'. split; [exact E |].
    split; [by rewrite Hleave |]. split; [by rewrite Hleave |].
    split; [| exact Hbal].
    rewrite Hstore. apply lookup_insert_eq.
Defined.

(** C3, at the failing input.  Ann has 5 days and asks for days 10 to 15,
    which takes all 5; the request is then rejected.  Every call returns Ok,
    and the balance is 0 before and after the rejection: the 5 days are not
    credited back. *)
Lemma reject_after_exact_request :
  allOk (host := demoHost) (annAsks 5 10 15 ++ [reject 3]) emptyState = true
  /\ balanceOf idA (demoRun (annJoins 5)) = Some 5
  /\ leaveStorage (demoRun (annAsks 5 10 15)) !! idL
     = Some (leaveOfAnn 10 15 5 2)
  /\ balanceOf idA (demoRun (annAsks 5 10 15)) = Some 0
  /\ balanceOf idA (demoRun (annAsks 5 10 15 ++ [reject 3])) = Some 0.
Proof. repeat split; vm_compute; reflexivity. Qed.

(** C4, at the failing input.  Ann has 6 days and is charged 3 at
    creation.  The first approval takes the balance from 3 to 0; the second
    one returns Ok and leaves it at 0, because the guard
    [!user.Ok.availableDays] of the balance adjustment holds for 0: the two
    calls reduce the balance by 3, not by 6. *)
Lemma second_approval_not_debited :
  allOk (host := demoHost) (annAsks 6 10 13 ++ [approve 3; approve 4])
        emptyState = true
  /\ leaveStorage (demoRun (annAsks 6 10 13)) !! idL
     = Some (leaveOfAnn 10 13 3 2)
  /\ balanceOf idA (demoRun (annAsks 6 10 13)) = Some 3
  /\ balanceOf idA (demoRun (annAsks 6 10 13 ++ [approve 3])) = Some 0
  /\ balanceOf idA (demoRun (annAsks 6 10 13 ++ [approve 3; approve 4]))
     = Some 0
  /\ Some 0 <> Some (3 - 2 * 3).
Proof. repeat split; try (vm_compute; reflexivity). discriminate. Qed.

(** C5, counterexample to the claim as stated.  Ann has 5 days and her
    request for days 10 to 15 takes them all.  A second request for days 15
    to 20 shares the boundary day 15 with the first; it fails on the balance
    check, which runs before the overlap check, with the
    insufficient-balance error. *)
Lemma overlap_masked_by_balance :
  leaveStorage (demoRun (annAsks 5 10 15)) !! idL = Some (leaveOfAnn 10 15 5 2)
  /\ Leave.userId (leaveOfAnn 10 15 5 2) = idA
  /\ ~ (Leave.endDate (leaveOfAnn 10 15 5 2)
        < LeavePayload.startDate (range 15 20)
        \/ Leave.startDate (leaveOfAnn 10 15 5 2)
           > LeavePayload.endDate (range 15 20))
  /\ fst (@requestLeave demoHost (envWith idM 3) idA (range 15 20)
            (demoRun (annAsks 5 10 15)))
     = Err "You are exceeding your available days for leave."
  /\ fst (@requestLeave demoHost (envWith idM 3) idA (range 15 20)
            (demoRun (annAsks 5 10 15)))
     <> Err "The chosen leave period overlaps with an existing leave.".
Proof.
  split; [vm_compute; reflexivity |]. split; [reflexivity |].
  split; [vm_compute; intros [H | H]; discriminate |].
  split; [vm_compute; reflexivity |].
  vm_compute. discriminate.
Qed.

(** Ann has 21 days and a request for days 10 to 15; she asks for days 15
    to 20. *)
Lemma requestLeave_overlap_witness :
  snd (@requestLeave demoHost (envWith idM 3) idA (range 15 20)
         (demoRun annAsksBobIdle))
  = demoRun annAsksBobIdle
  /\ fst (@requestLeave demoHost (envWith idM 3) idA (range 15 20)
            (demoRun annAsksBobIdle))
     = Err "The chosen leave period overlaps with an existing leave.".
Proof.
  destruct (@requestLeave_overlap demoHost (envWith idM 3) idA (range 15 20)
              (demoRun annAsksBobIdle) idL (leaveOfAnn 10 15 5 2))
    as (Hsame & _ & _ & H).
  - vm_compute; reflexivity.
  - reflexivity.
  - vm_compute. intros [H | H]; discriminate.
  - split; [exact Hsame |].
    destruct (H (annWith 16 (Some 2%N))) as (_ & _ & _ & Hoverlap).
    + vm_compute; reflexivity.
    + vm_compute; reflexivity.
    + apply Hoverlap.
      * vm_compute. intros Hc. by apply Hc.
      * vm_compute; reflexivity.
      * vm_compute; reflexivity.
      * vm_compute. intros Hc. discriminate Hc.
Defined.

(** Ann has 5 days and asks for 10. *)
Lemma requestLeave_insufficient_witness :
  @requestLeave demoHost (envWith idL 2) idA (range 10 20)
    (demoRun (annJoins 5))
  = (Err "You are exceeding your available days for leave.",
     demoRun (annJoins 5))
  /\ balanceOf idA
       (snd (@requestLeave demoHost (envWith idL 2) idA (range 10 20)
               (demoRun (annJoins 5)))) = Some 5.
Proof.
  apply (@requestLeave_insufficient demoHost (envWith idL 2) idA (range 10 20)
           (demoRun (annJoins 5)) (annWith 5 None) 5 10);
    try (vm_compute; reflexivity).
Defined.

(** C8, at the failing input.  The only stored request is Ann's;
    getUsersLeaveRequests called with Bob's identifier returns it, although
    its stored userId is not Bob's. *)
Lemma getUsersLeaveRequests_other_user :
  @getUsersLeaveRequests demoHost idB (demoRun annAsksBobIdle)
  = Ok [leaveOfAnn 10 15 5 2]
  /\ Leave.userId (leaveOfAnn 10 15 5 2) <> idB.
Proof. split; [vm_compute; reflexivity | discriminate]. Qed.

(** C9, at the failing input.  Ann and Bob join with different emails;
    updateUser then gives Bob Ann's email and returns Ok: two distinct
    stored users share an email. *)
Lemma updateUser_duplicates_email :
  allOk (host := demoHost) bobTakesEmail emptyState = true
  /\ User.email <$> userStorage (demoRun bobTakesEmail) !! idA
     = Some "ann@x.org"%string
  /\ User.email <$> userStorage (demoRun bobTakesEmail) !! idB
     = Some "ann@x.org"%string
  /\ idA <> idB
  /\ ~ @uniqueEmails (demoRun bobTakesEmail).
Proof.
  split; [vm_compute; reflexivity |]. split; [vm_compute; reflexivity |].
  split; [vm_compute; reflexivity |]. split; [discriminate |].
  intros H.
  assert (Ea : userStorage (demoRun bobTakesEmail) !! idA
               = Some (annWith 21 None)) by (vm_compute; reflexivity).
  assert (Eb : userStorage (demoRun bobTakesEmail) !! idB
               = Some {| User.id := idB; User.name := "Bob";
                         User.email := "ann@x.org";
                         User.availableDays := 21; User.createdAt := 1;
                         User.updatedAt := Some 3%N |})
    by (vm_compute; reflexivity).
  pose proof (H idA idB _ _ Ea Eb eq_refl) as Hsame.
  clear -Hsame. discriminate Hsame.
Qed.

(** Ann's request is approved after her account was deleted. *)
Lemma updateLeaveStatus_adjustment_dropped_witness :
  fst (@updateLeaveStatus demoHost (envWith idM 4) idL APPROVED
         (demoRun annLeaves))
  = Ok (withStatus (envWith idM 4) APPROVED (leaveOfAnn 10 13 3 2))
  /\ userStorage
       (snd (@updateLeaveStatus demoHost (envWith idM 4) idL APPROVED
               (demoRun annLeaves)))
     = userStorage (demoRun annLeaves).
Proof.
  destruct (@updateLeaveStatus_adjustment_dropped demoHost (envWith idM 4) idL
              APPROVED (demoRun annLeaves) (leaveOfAnn 10 13 3 2))
    as (E & _).
  - apply demo_reachable. vm_compute; reflexivity.
  - vm_compute; reflexivity.
  - left. vm_compute; reflexivity.
  - rewrite E. split; reflexivity.
Defined.

(** * Further properties of the code *)

(** ** Duration *)

Lemma round_div_multiple (n d : Z) :
  0 < d -> 0 <= n -> round_div (n * d) d = n.
Proof.
  intros Hd Hn. unfold round_div. symmetry.
  apply (Z.div_unique _ _ n d); lia.
Qed.

(** X1. A range of exactly n whole days, in either direction, between two
    instants that are exact numbers (magnitude at most 2^53) has duration
    |n|, and 1 when n = 0. *)
Theorem findDiffInDays_whole_days (startDate n : Z) :
  exactNumber startDate ->
  exactNumber (startDate + n * oneDay) ->
  exactNumber (n * oneDay) ->
  findDiffInDays startDate (startDate + n * oneDay) = Z.max 1 (Z.abs n).
Proof.
  intros _ _ _.
  rewrite findDiffInDays_round_div. f_equal.
  replace (startDate + n * oneDay - startDate) with (n * oneDay) by lia.
  rewrite Z.abs_mul, (Z.abs_eq oneDay) by (unfold oneDay; lia).
  apply round_div_multiple; [apply oneDay_pos | lia].
Qed.


(** X3. The duration grows with the distance between the two instants. *)
Theorem findDiffInDays_monotone (s1 e1 s2 e2 : Z) :
  Z.abs (e1 - s1) <= Z.abs (e2 - s2) ->
  findDiffInDays s1 e1 <= findDiffInDays s2 e2.
Proof.
  intros H. rewrite !findDiffInDays_round_div. unfold round_div.
  apply Z.max_le_compat_l.
  apply Z.div_le_mono; [unfold oneDay; lia | lia].
Qed.

Section Further.
Context {host : Host}.

(** ** Failed calls *)

Lemma isYear_true (year : option Z) (current : Z) :
  isYear year current = true <-> year = Some current.
Proof.
  destruct year as [y |]; simpl; [| done].
  rewrite Z.eqb_eq. split; [by intros -> | by intros [= ->]].
Qed.

Lemma existsb_overlaps_false_iff userId startDate endDate st :
  existsb (overlaps startDate endDate)
    (List.filter (fun leave => String.eqb (Leave.userId leave) userId)
                 (values (leaveStorage st))) = false
  <-> forall k l,
        leaveStorage st !! k = Some l -> Leave.userId l = userId ->
        endDate < Leave.startDate l \/ startDate > Leave.endDate l.
Proof.
  split; [| apply no_overlap_existsb].
  intros Hex k l Hk Hown.
  destruct (Z.lt_ge_cases endDate (Leave.startDate l)); [by left |].
  destruct (Z.lt_ge_cases (Leave.endDate l) startDate); [right; lia |].
  rewrite (overlap_existsb userId startDate endDate st k l Hk Hown) in Hex;
    [discriminate | lia].
Qed.


Lemma updateUser_Err_unchanged env id p st :
  isOk (fst (updateUser env id p st)) = false ->
  snd (updateUser env id p st) = st.
Proof.
  unfold updateUser.
  destruct (isValidUUID id); simpl; [| done].
  destruct (falsy _ || falsy _); [done |].
  destruct (userStorage st !! id); [discriminate | done].
Qed.

(** X4. An update call that returns an error leaves both stores exactly as
    they were, whichever call it is. *)
Theorem perform_Err_unchanged env c st :
  fst (perform env c st) = false -> snd (perform env c st) = st.
Proof.
  destruct c; simpl.
  - unfold addUser. destruct (falsy _ || falsy _); [done |].
    destruct (List.find _ _); [done | discriminate].
  - apply updateUser_Err_unchanged.
  - unfold deleteUser. destruct (isValidUUID id); simpl; [| done].
    destruct (userStorage st !! id); [discriminate | done].
  - apply requestLeave_Err_unchanged.
  - unfold updateLeave. destruct (isValidUUID id); simpl; [| done].
    destruct (leaveStorage st !! id); [| done].
    destruct (_ <? 1); [done | discriminate].
  - unfold deleteLeave. destruct (isValidUUID id); simpl; [| done].
    destruct (leaveStorage st !! id); [discriminate | done].
  - unfold updateLeaveStatus. destruct (isValidUUID id); simpl; [| done].
    destruct (leaveStorage st !! id); [discriminate | done].
Qed.

(** ** Invariants of the reachable states *)

Lemma falsy_false (s : string) : falsy s = false <-> s <> ""%string.
Proof. unfold falsy. apply String.eqb_neq. Qed.

(** X5. In every reachable state each user is stored under its own id,
    that id is a valid UUID, and its name and email are not empty; each
    request is stored under its own id, and that id and the owner's id are
    valid UUIDs. *)
Theorem reachable_records st :
  reachable st ->
  (forall k u,
      userStorage st !! k = Some u ->
      User.id u = k /\ isValidUUID k = true
      /\ User.name u <> ""%string /\ User.email u <> ""%string)
  /\ (forall k l,
        leaveStorage st !! k = Some l ->
        Leave.id l = k /\ isValidUUID k = true
        /\ isValidUUID (Leave.userId l) = true).
Proof.
  intros Hreach. destruct (reachable_wf st Hreach) as [Hu Hl]. split.
  - intros k u Hk. destruct (Hu k u Hk) as (H1 & H2 & H3 & H4).
    rewrite falsy_false in H3, H4. done.
  - intros k l Hk. destruct (Hl k l Hk) as (H1 & H2 & H3 & _). done.
Qed.

Lemma updateUsersAvailableDays_leaveStorage env userId leaveDays operation st :
  leaveStorage
    (snd (updateUsersAvailableDays env userId leaveDays operation st))
  = leaveStorage st.
Proof.
  unfold updateUsersAvailableDays, getUser, updateUser.
  destruct (isValidUUID userId); simpl; [| done].
  destruct (userStorage st !! userId) as [u |] eqn:Hu; [| done].
  destruct (User.availableDays u =? 0); [done |]. simpl.
  destruct (falsy (User.name u) || falsy (User.email u)); done.
Qed.

(** What requestLeave does to the leave store: nothing, or one insertion
    of a request that shares no instant with the owner's stored ones. *)
Lemma requestLeave_leaveStorage env userId p st :
  leaveStorage (snd (requestLeave env userId p st)) = leaveStorage st
  \/ (leaveStorage (snd (requestLeave env userId p st))
      = <[uuidv4 env := newLeaveRecord env userId p]> (leaveStorage st)
      /\ forall k l,
           leaveStorage st !! k = Some l -> Leave.userId l = userId ->
           LeavePayload.endDate p < Leave.startDate l
           \/ LeavePayload.startDate p > Leave.endDate l).
Proof.
  unfold requestLeave.
  destruct (isValidUUID userId); simpl; [| by left].
  destruct (getUser userId st) as [u | msg]; [| by left].
  destruct (_ >=? _); [by left |].
  destruct (negb _ || negb _); [by left |].
  destruct (_ <? 1); [by left |].
  destruct (_ <? _); [by left |].
  destruct (existsb _ _) eqn:Hex; [by left |]. simpl. right.
  rewrite updateUsersAvailableDays_leaveStorage. split; [done |].
  by apply existsb_overlaps_false_iff.
Qed.

Lemma updateLeaveStatus_leaveStorage env id status st :
  leaveStorage (snd (updateLeaveStatus env id status st))
  = match leaveStorage st !! id with
    | Some l =>
      if isValidUUID id
      then <[Leave.id l := withStatus env status l]> (leaveStorage st)
      else leaveStorage st
    | None => leaveStorage st
    end.
Proof.
  unfold updateLeaveStatus.
  destruct (isValidUUID id); simpl; [| by destruct (leaveStorage st !! id)].
  destruct (leaveStorage st !! id) as [l |]; [| done]. simpl.
  destruct (String.eqb status REJECTED);
    by rewrite updateUsersAvailableDays_leaveStorage.
Qed.

Lemma daysConsistent_insert k l (m : gmap string Leave.t) :
  (forall k' l', m !! k' = Some l' ->
     Leave.days l' = findDiffInDays (Leave.startDate l') (Leave.endDate l')) ->
  Leave.days l = findDiffInDays (Leave.startDate l) (Leave.endDate l) ->
  forall k' l', <[k := l]> m !! k' = Some l' ->
     Leave.days l' = findDiffInDays (Leave.startDate l') (Leave.endDate l').
Proof.
  intros Hm Hl k' l'. rewrite lookup_insert_Some.
  intros [[_ <-] | [_ H]]; eauto.
Qed.

Lemma perform_daysConsistent env c st :
  daysConsistent st -> daysConsistent (snd (perform env c st)).
Proof.
  intros Hst. destruct c; simpl.
  - unfold addUser. destruct (falsy _ || falsy _); [done |].
    by destruct (List.find _ _).
  - unfold updateUser. destruct (isValidUUID id); simpl; [| done].
    destruct (falsy _ || falsy _); [done |].
    by destruct (userStorage st !! id).
  - unfold deleteUser. destruct (isValidUUID id); simpl; [| done].
    by destruct (userStorage st !! id).
  - unfold daysConsistent.
    destruct (requestLeave_leaveStorage env userId payload st)
      as [-> | [-> _]]; [done |].
    by apply daysConsistent_insert.
  - unfold updateLeave. destruct (isValidUUID id); simpl; [| done].
    destruct (leaveStorage st !! id) as [l |]; [| done].
    destruct (_ <? 1); [done |]. unfold daysConsistent. simpl.
    by apply daysConsistent_insert.
  - unfold deleteLeave. destruct (isValidUUID id); simpl; [| done].
    destruct (leaveStorage st !! id) as [l |]; [| done].
    unfold daysConsistent. simpl. intros k l'.
    rewrite lookup_delete_Some. intros [_ H]. by apply (Hst k).
  - unfold daysConsistent. rewrite updateLeaveStatus_leaveStorage.
    destruct (leaveStorage st !! id) as [l |] eqn:Hl; [| done].
    destruct (isValidUUID id); [| done].
    apply daysConsistent_insert; [done |]. simpl. by apply (Hst id).
Qed.

(** X6. In every reachable state the days of each stored request are the
    duration findDiffInDays computes from its stored start and end dates:
    creation, edits and status updates keep the two in step. *)
Theorem reachable_daysConsistent st :
  reachable st -> daysConsistent st.
Proof.
  induction 1 as [| st env c _ IH _].
  - intros k l Hk. simpl in Hk. by rewrite lookup_empty in Hk.
  - by apply perform_daysConsistent.
Qed.

(** ** Users *)

Lemma find_email_None_iff (email : string) (m : gmap string User.t) :
  List.find (fun user => String.eqb (User.email user) email) (values m) = None
  <-> forall k u, m !! k = Some u -> User.email u <> email.
Proof.
  rewrite find_values_None. split; intros H k u Hk.
  - apply String.eqb_neq. by apply (H k).
  - apply String.eqb_neq. by apply (H k).
Qed.

(** X7. addUser returns Ok exactly when the payload's name and email are
    not empty and no stored user has the same email. *)
Theorem addUser_Ok_iff env p st :
  isOk (fst (addUser env p st)) = true
  <-> UserPayload.name p <> ""%string /\ UserPayload.email p <> ""%string
      /\ forall k u,
           userStorage st !! k = Some u -> User.email u <> UserPayload.email p.
Proof.
  rewrite <- !falsy_false, <- find_email_None_iff. unfold addUser.
  destruct (falsy (UserPayload.name p)); simpl;
    [split; [done | by intros []] |].
  destruct (falsy (UserPayload.email p)); simpl;
    [split; [done | by intros (_ & ? & _)] |].
  destruct (List.find _ _); simpl; [split; [done | by intros (_ & _ & ?)] |].
  done.
Qed.

(** X8. When addUser accepts a payload it stores the new user under the
    generated id with the payload's balance, or 21 when the payload has
    none, and getUser on that id returns the same record. *)
Theorem addUser_getUser env p st :
  isValidUUID (uuidv4 env) = true ->
  UserPayload.name p <> ""%string ->
  UserPayload.email p <> ""%string ->
  (forall k u,
      userStorage st !! k = Some u -> User.email u <> UserPayload.email p) ->
  addUser env p st
  = (Ok (newUserRecord env p),
     {| leaveStorage := leaveStorage st;
        userStorage :=
          <[uuidv4 env := newUserRecord env p]> (userStorage st) |})
  /\ getUser (uuidv4 env) (snd (addUser env p st)) = Ok (newUserRecord env p)
  /\ User.availableDays (newUserRecord env p)
     = match UserPayload.availableDays p with Some a => a | None => 21 end.
Proof.
  intros Hfresh Hn He Hfree.
  apply falsy_false in Hn. apply falsy_false in He.
  apply find_email_None_iff in Hfree.
  assert (E : addUser env p st
    = (Ok (newUserRecord env p),
       {| leaveStorage := leaveStorage st;
          userStorage :=
            <[uuidv4 env := newUserRecord env p]> (userStorage st) |})).
  { unfold addUser. rewrite Hn, He, Hfree. reflexivity. }
  split; [exact E |]. split.
  - rewrite E. unfold getUser. rewrite Hfresh. simpl.
    by rewrite lookup_insert_eq.
  - simpl. by destruct (UserPayload.availableDays p).
Qed.

(** X9. In a reachable state updateUser on a stored user, with a name and
    an email that are not empty, replaces name and email (and the balance
    when the payload has one), keeps id and createdAt, leaves every other
    user and the leave store untouched, and getUser returns the new
    record. *)
Theorem updateUser_getUser env id p st u :
  reachable st ->
  userStorage st !! id = Some u ->
  UserPayload.name p <> ""%string ->
  UserPayload.email p <> ""%string ->
  updateUser env id p st
  = (Ok (updatedUserRecord env p u),
     {| leaveStorage := leaveStorage st;
        userStorage := <[id := updatedUserRecord env p u]> (userStorage st) |})
  /\ getUser id (snd (updateUser env id p st)) = Ok (updatedUserRecord env p u)
  /\ User.id (updatedUserRecord env p u) = id.
Proof.
  intros Hreach Hu Hn He.
  apply falsy_false in Hn. apply falsy_false in He.
  destruct (reachable_wf st Hreach) as [Hwfu _].
  destruct (Hwfu id u Hu) as (Hid & Hvalid & _).
  assert (E : updateUser env id p st
    = (Ok (updatedUserRecord env p u),
       {| leaveStorage := leaveStorage st;
          userStorage :=
            <[id := updatedUserRecord env p u]> (userStorage st) |})).
  { rewrite (updateUser_stored env id p st u Hvalid Hn He Hu).
    clear Hu. by subst id. }
  split; [exact E |]. split; [| exact Hid].
  rewrite E. unfold getUser. rewrite Hvalid. simpl.
  by rewrite lookup_insert_eq.
Qed.

(** X10. deleteUser on a stored user returns it and removes it; the leave
    store is untouched, so the user's requests stay; afterwards getUser, a
    second deleteUser and requestLeave on that id all return their
    not-found errors. *)
Theorem deleteUser_gone env id p st u :
  isValidUUID id = true ->
  userStorage st !! id = Some u ->
  let st' :=
    {| leaveStorage := leaveStorage st;
       userStorage := delete id (userStorage st) |} in
  deleteUser id st = (Ok u, st')
  /\ getUser id st' = Err ("User with ID " +:+ id +:+ " not found!")
  /\ deleteUser id st' = (Err ("User with ID " +:+ id +:+ " not found!"), st')
  /\ requestLeave env id p st'
     = (Err "User with the given ID was not found.", st').
Proof.
  intros Hvalid Hu st'.
  assert (Hgone : userStorage st' !! id = None) by apply lookup_delete_eq.
  split; [unfold deleteUser; by rewrite Hvalid, Hu |].
  split; [unfold getUser; by rewrite Hvalid, Hgone |].
  split; [unfold deleteUser; by rewrite Hvalid, Hgone |].
  unfold requestLeave, getUser. by rewrite Hvalid, Hgone.
Qed.

(** *** Emails *)

Lemma updateUser_uniqueEmails env id p st :
  map_Forall wfUser (userStorage st) ->
  uniqueEmails st ->
  (forall k u,
      userStorage st !! k = Some u ->
      User.email u = UserPayload.email p -> k = id) ->
  uniqueEmails (snd (updateUser env id p st)).
Proof.
  intros Hwf Hst Hfree. unfold updateUser.
  destruct (isValidUUID id); simpl; [| done].
  destruct (falsy _ || falsy _); [done |].
  destruct (userStorage st !! id) as [u |] eqn:Hu; [| done]. simpl.
  destruct (Hwf id u Hu) as (Hid & _). rewrite Hid.
  intros k1 k2 u1 u2. simpl. rewrite !lookup_insert_Some.
  intros [[<- <-] | [Hne1 H1]] [[<- <-] | [Hne2 H2]] He; simpl in He.
  - done.
  - symmetry. by apply (Hfree k2 u2).
  - by apply (Hfree k1 u1).
  - by apply (Hst k1 k2 u1 u2).
Qed.

Lemma updateUsersAvailableDays_uniqueEmails env userId leaveDays operation st :
  map_Forall wfUser (userStorage st) ->
  uniqueEmails st ->
  uniqueEmails
    (snd (updateUsersAvailableDays env userId leaveDays operation st)).
Proof.
  intros Hwf Hst. unfold updateUsersAvailableDays.
  destruct (isValidUUID userId); simpl; [| done].
  destruct (getUser userId st) as [u | msg] eqn:Hget; [| done].
  apply getUser_Ok in Hget as [_ Hu].
  destruct (User.availableDays u =? 0); [done |].
  apply updateUser_uniqueEmails; [done | done |]. simpl.
  intros k u' Hk He. by apply (Hst k userId u' u).
Qed.

Lemma perform_uniqueEmails env c st :
  wfState st -> uniqueEmails st -> emailKept st c ->
  uniqueEmails (snd (perform env c st)).
Proof.
  intros [Hwfu Hwfl] Hst Hkeep. destruct c; simpl.
  - by apply addUser_uniqueEmails.
  - by apply updateUser_uniqueEmails.
  - unfold deleteUser. destruct (isValidUUID id); simpl; [| done].
    destruct (userStorage st !! id); [| done].
    intros k1 k2 u1 u2. simpl. rewrite !lookup_delete_Some.
    intros [_ H1] [_ H2]. by apply (Hst k1 k2).
  - unfold requestLeave.
    destruct (isValidUUID userId); simpl; [| done].
    destruct (getUser userId st) as [u | msg]; [| done].
    destruct (_ >=? _); [done |].
    destruct (negb _ || negb _); [done |].
    destruct (_ <? 1); [done |].
    destruct (_ <? _); [done |].
    destruct (existsb _ _); [done |]. simpl.
    by apply updateUsersAvailableDays_uniqueEmails.
  - unfold updateLeave. destruct (isValidUUID id); simpl; [| done].
    destruct (leaveStorage st !! id); [| done].
    by destruct (_ <? 1).
  - unfold deleteLeave. destruct (isValidUUID id); simpl; [| done].
    by destruct (leaveStorage st !! id).
  - unfold updateLeaveStatus. destruct (isValidUUID id); simpl; [| done].
    destruct (leaveStorage st !! id); [| done]. simpl.
    destruct (String.eqb status REJECTED);
      by apply updateUsersAvailableDays_uniqueEmails.
Qed.

Lemma run_uniqueEmails calls st :
  wfState st -> uniqueEmails st -> emailsKept calls st ->
  uniqueEmails (run calls st).
Proof.
  revert st. induction calls as [| [env c] rest IH]; intros st Hwf Hst Hk.
  - exact Hst.
  - destruct Hk as (Hfresh & Hkeep & Hrest). simpl.
    apply IH; [by apply perform_wf | by apply perform_uniqueEmails | done].
Qed.

(** X11. From the empty canister, no two stored users share an email
    after any sequence of calls in which every updateUser writes an email
    that no other stored user holds: addUser, deleteUser and the balance
    adjustments of requestLeave and updateLeaveStatus all keep emails
    unique. *)
Theorem emails_unique_kept calls :
  emailsKept calls emptyState -> uniqueEmails (run calls emptyState).
Proof.
  apply run_uniqueEmails.
  - apply emptyState_wf.
  - intros k1 k2 u1 u2 H1. simpl in H1. by rewrite lookup_empty in H1.
Qed.

(** *** Listing *)

Lemma values_length {V : Type} (m : gmap string V) :
  length (values m) = size m.
Proof. unfold values. by rewrite length_fmap, length_map_to_list. Qed.

Lemma values_NoDup {V : Type} (key : V -> string) (m : gmap string V) :
  (forall k v, m !! k = Some v -> key v = k) ->
  List.NoDup (values m).
Proof.
  intros Hkey. apply NoDup_ListNoDup. unfold values.
  apply NoDup_fmap_2_strong; [| apply NoDup_map_to_list].
  intros [k1 v1] [k2 v2] H1 H2 E. simpl in E. subst v2.
  apply elem_of_map_to_list in H1, H2.
  by rewrite <- (Hkey k1 v1 H1), <- (Hkey k2 v1 H2).
Qed.

(** X12. In a reachable state getUsers and getLeaveRequests return every
    stored record exactly once: the lists have no duplicates, as many
    entries as the stores, and a record is listed exactly when it is
    stored under its own id. *)
Theorem listings_complete st :
  reachable st ->
  (exists us,
      getUsers st = Ok us /\ List.NoDup us
      /\ length us = size (userStorage st)
      /\ forall u, In u us <-> userStorage st !! User.id u = Some u)
  /\ (exists ls,
        getLeaveRequests st = Ok ls /\ List.NoDup ls
        /\ length ls = size (leaveStorage st)
        /\ forall l, In l ls <-> leaveStorage st !! Leave.id l = Some l).
Proof.
  intros Hreach. destruct (reachable_wf st Hreach) as [Hu Hl]. split.
  - exists (values (userStorage st)). split; [done |].
    split; [apply (values_NoDup User.id); intros k v Hk; apply (Hu k v Hk) |].
    split; [apply values_length |].
    intros u. rewrite In_values. split.
    + intros [k Hk]. destruct (Hu k u Hk) as [<- _]. exact Hk.
    + intros H. by exists (User.id u).
  - exists (values (leaveStorage st)). split; [done |].
    split; [apply (values_NoDup Leave.id); intros k v Hk; apply (Hl k v Hk) |].
    split; [apply values_length |].
    intros l. rewrite In_values. split.
    + intros [k Hk]. destruct (Hl k l Hk) as [<- _]. exact Hk.
    + intros H. by exists (Leave.id l).
Qed.

(** ** Requests *)

(** X13. requestLeave returns Ok exactly when the id is a valid UUID of a
    stored user, start < end, both dates fall in the current year, the
    test availableDays < duration of the code is false, and for every
    stored request of that user the new range ends before it starts or
    starts after it ends. *)
Theorem requestLeave_Ok_iff env userId p st :
  isOk (fst (requestLeave env userId p st)) = true
  <-> isValidUUID userId = true
      /\ exists u,
           userStorage st !! userId = Some u
           /\ LeavePayload.startDate p < LeavePayload.endDate p
           /\ getFullYear (LeavePayload.startDate p) = Some (currentYear env)
           /\ getFullYear (LeavePayload.endDate p) = Some (currentYear env)
           /\ ~ User.availableDays u
                < findDiffInDays (LeavePayload.startDate p)
                                 (LeavePayload.endDate p)
           /\ forall k l,
                leaveStorage st !! k = Some l -> Leave.userId l = userId ->
                LeavePayload.endDate p < Leave.startDate l
                \/ LeavePayload.startDate p > Leave.endDate l.
Proof.
  setoid_rewrite <- existsb_overlaps_false_iff.
  setoid_rewrite <- isYear_true.
  unfold requestLeave, getUser.
  destruct (isValidUUID userId); simpl; [| split; [done | by intros []]].
  destruct (userStorage st !! userId) as [u |];
    [| split; [done | by intros (_ & ? & ? & _)]].
  rewrite Z.geb_leb.
  destruct (Z.leb_spec (LeavePayload.endDate p) (LeavePayload.startDate p)).
  { split; [done |]. intros (_ & ? & _ & ? & _). lia. }
  destruct (isYear (getFullYear (LeavePayload.startDate p)) (currentYear env));
    simpl; [| split; [done | by intros (_ & ? & _ & _ & ? & _)]].
  destruct (isYear (getFullYear (LeavePayload.endDate p)) (currentYear env));
    simpl; [| split; [done | by intros (_ & ? & _ & _ & _ & ? & _)]].
  pose proof (findDiffInDays_ge_1 (LeavePayload.startDate p)
                                  (LeavePayload.endDate p)) as Hge.
  destruct (Z.ltb_spec (findDiffInDays (LeavePayload.startDate p)
                                       (LeavePayload.endDate p)) 1); [lia |].
  destruct (Z.ltb_spec (User.availableDays u)
              (findDiffInDays (LeavePayload.startDate p)
                              (LeavePayload.endDate p))).
  { split; [done |]. intros (_ & u' & [= <-] & _ & _ & _ & ? & _). lia. }
  destruct (existsb _ _); simpl.
  - split; [done | by intros (_ & ? & _ & _ & _ & _ & _ & ?)].
  - split; [| done]. intros _. split; [done |]. exists u.
    repeat split; try done. lia.
Qed.

(** What an accepted request writes, for a well-formed stored owner. *)
Lemma requestLeave_accepted env userId p st u :
  wfUser userId u ->
  userStorage st !! userId = Some u ->
  LeavePayload.startDate p < LeavePayload.endDate p ->
  getFullYear (LeavePayload.startDate p) = Some (currentYear env) ->
  getFullYear (LeavePayload.endDate p) = Some (currentYear env) ->
  findDiffInDays (LeavePayload.startDate p) (LeavePayload.endDate p)
  <= User.availableDays u ->
  (forall k l,
      leaveStorage st !! k = Some l -> Leave.userId l = userId ->
      LeavePayload.endDate p < Leave.startDate l
      \/ LeavePayload.startDate p > Leave.endDate l) ->
  requestLeave env userId p st
  = (Ok (newLeaveRecord env userId p),
     {| leaveStorage :=
          <[uuidv4 env := newLeaveRecord env userId p]> (leaveStorage st);
        userStorage :=
          <[userId :=
              withBalance env
                (User.availableDays u
                 - findDiffInDays (LeavePayload.startDate p)
                                  (LeavePayload.endDate p)) u]>
            (userStorage st) |}).
Proof.
  intros Hwf Hu Horder Hys Hye Hbal Hfree.
  pose proof Hwf as (_ & Hvalid & _).
  pose proof (findDiffInDays_ge_1 (LeavePayload.startDate p)
                                  (LeavePayload.endDate p)) as Hge.
  unfold requestLeave, getUser. rewrite Hvalid, Hu. simpl.
  rewrite Z.geb_leb.
  destruct (Z.leb_spec (LeavePayload.endDate p) (LeavePayload.startDate p));
    [lia |].
  rewrite Hys, Hye. simpl. rewrite Z.eqb_refl. simpl.
  destruct (Z.ltb_spec (findDiffInDays (LeavePayload.startDate p)
                                       (LeavePayload.endDate p)) 1); [lia |].
  destruct (Z.ltb_spec (User.availableDays u)
              (findDiffInDays (LeavePayload.startDate p)
                              (LeavePayload.endDate p))); [lia |].
  rewrite (no_overlap_existsb _ _ _ _ Hfree).
  rewrite (updateUsersAvailableDays_applied env userId _ SUBTRACT _ u Hwf);
    [| done | lia].
  reflexivity.
Qed.

(** X14. In a reachable state, when a request of D days is accepted for a
    user whose balance B is a whole number with D < B <= 2^53 and is then
    rejected, the balance goes to B - D and back to B, and the stored
    request has status REJECTED. *)
Theorem reject_restores_balance env env' userId p st u B D :
  reachable st ->
  isValidUUID (uuidv4 env) = true ->
  userStorage st !! userId = Some u ->
  User.availableDays u = B ->
  findDiffInDays (LeavePayload.startDate p) (LeavePayload.endDate p) = D ->
  D < B ->
  B <= MAX_EXACT ->
  LeavePayload.startDate p < LeavePayload.endDate p ->
  getFullYear (LeavePayload.startDate p) = Some (currentYear env) ->
  getFullYear (LeavePayload.endDate p) = Some (currentYear env) ->
  (forall k l,
      leaveStorage st !! k = Some l -> Leave.userId l = userId ->
      LeavePayload.endDate p < Leave.startDate l
      \/ LeavePayload.startDate p > Leave.endDate l) ->
  let st1 := snd (requestLeave env userId p st) in
  let st2 := snd (updateLeaveStatus env' (uuidv4 env) REJECTED st1) in
  balanceOf userId st1 = Some (B - D)
  /\ balanceOf userId st2 = Some B
  /\ Leave.status <$> leaveStorage st2 !! uuidv4 env = Some REJECTED.
Proof.
  intros Hreach Hfresh Hu HB HD Hlt _ Horder Hys Hye Hfree st1 st2.
  pose proof (reachable_wf st Hreach) as Hwf.
  pose proof (proj1 Hwf userId u Hu) as Hwfu.
  assert (Hwf1 : wfState st1) by (by apply requestLeave_wf).
  assert (E1 : st1 =
    {| leaveStorage :=
         <[uuidv4 env := newLeaveRecord env userId p]> (leaveStorage st);
       userStorage :=
         <[userId := withBalance env (B - D) u]> (userStorage st) |}).
  { unfold st1.
    rewrite (requestLeave_accepted env userId p st u Hwfu Hu Horder Hys Hye);
      [| lia | done].
    by rewrite HB, HD. }
  assert (E2 : updateLeaveStatus env' (uuidv4 env) REJECTED st1
    = (Ok (withStatus env' REJECTED (newLeaveRecord env userId p)),
       {| leaveStorage :=
            <[uuidv4 env :=
                withStatus env' REJECTED (newLeaveRecord env userId p)]>
              (leaveStorage st1);
          userStorage :=
            <[userId :=
                withBalance env'
                  (B - D + findDiffInDays (LeavePayload.startDate p)
                                          (LeavePayload.endDate p))
                  (withBalance env (B - D) u)]>
              (userStorage st1) |})).
  { rewrite (updateLeaveStatus_settled env' (uuidv4 env) REJECTED st1
               (newLeaveRecord env userId p) (withBalance env (B - D) u) Hwf1).
    - reflexivity.
    - rewrite E1. simpl. apply lookup_insert_eq.
    - rewrite E1. simpl. apply lookup_insert_eq.
    - simpl. lia. }
  split; [| split].
  - rewrite E1. unfold balanceOf. simpl. by rewrite lookup_insert_eq.
  - unfold st2. rewrite E2. unfold balanceOf. simpl.
    rewrite lookup_insert_eq. simpl. f_equal. lia.
  - unfold st2. rewrite E2. simpl. by rewrite lookup_insert_eq.
Qed.

(** X15. In a reachable state, when a request of D days is accepted under
    a fresh id for a user whose balance B is a whole number with
    D <= B <= 2^53 and is then deleted, deleteLeave returns the request, the
    leave store is what it was before the request, and the balance stays at
    B - D: the deletion gives no days back. *)
Theorem delete_keeps_debit env userId p st u B D :
  reachable st ->
  isValidUUID (uuidv4 env) = true ->
  leaveStorage st !! uuidv4 env = None ->
  userStorage st !! userId = Some u ->
  User.availableDays u = B ->
  findDiffInDays (LeavePayload.startDate p) (LeavePayload.endDate p) = D ->
  D <= B ->
  B <= MAX_EXACT ->
  LeavePayload.startDate p < LeavePayload.endDate p ->
  getFullYear (LeavePayload.startDate p) = Some (currentYear env) ->
  getFullYear (LeavePayload.endDate p) = Some (currentYear env) ->
  (forall k l,
      leaveStorage st !! k = Some l -> Leave.userId l = userId ->
      LeavePayload.endDate p < Leave.startDate l
      \/ LeavePayload.startDate p > Leave.endDate l) ->
  let st1 := snd (requestLeave env userId p st) in
  let st2 := snd (deleteLeave (uuidv4 env) st1) in
  fst (deleteLeave (uuidv4 env) st1) = Ok (newLeaveRecord env userId p)
  /\ leaveStorage st2 = leaveStorage st
  /\ balanceOf userId st2 = Some (B - D).
Proof.
  intros Hreach Hfresh Hnew Hu HB HD Hle _ Horder Hys Hye Hfree st1 st2.
  pose proof (reachable_wf st Hreach) as Hwf.
  pose proof (proj1 Hwf userId u Hu) as Hwfu.
  assert (E1 : st1 =
    {| leaveStorage :=
         <[uuidv4 env := newLeaveRecord env userId p]> (leaveStorage st);
       userStorage :=
         <[userId := withBalance env (B - D) u]> (userStorage st) |}).
  { unfold st1.
    rewrite (requestLeave_accepted env userId p st u Hwfu Hu Horder Hys Hye);
      [| lia | done].
    by rewrite HB, HD. }
  assert (E2 : deleteLeave (uuidv4 env) st1
    = (Ok (newLeaveRecord env userId p),
       {| leaveStorage := leaveStorage st;
          userStorage :=
            <[userId := withBalance env (B - D) u]> (userStorage st) |})).
  { unfold deleteLeave. rewrite Hfresh, E1. simpl.
    rewrite lookup_insert_eq. by rewrite (delete_insert_id _ _ _ Hnew). }
  unfold st2. rewrite E2. split; [done |]. split; [done |].
  unfold balanceOf. simpl. by rewrite lookup_insert_eq.
Qed.

(** X16. In a reachable state updateLeave on a stored request returns Ok
    for every payload: it checks neither date order, year, overlap nor
    balance.  It stores the new dates and their duration, keeps id, owner,
    status and createdAt, and leaves the user store untouched. *)
Theorem updateLeave_unchecked env id p st l :
  reachable st ->
  leaveStorage st !! id = Some l ->
  updateLeave env id p st
  = (Ok (editedLeaveRecord env p l),
     {| leaveStorage := <[id := editedLeaveRecord env p l]> (leaveStorage st);
        userStorage := userStorage st |}).
Proof.
  intros Hreach Hl.
  destruct (reachable_wf st Hreach) as [_ Hwfl].
  destruct (Hwfl id l Hl) as (Hid & Hvalid & _).
  pose proof (findDiffInDays_ge_1 (LeavePayload.startDate p)
                                  (LeavePayload.endDate p)) as Hge.
  unfold updateLeave. rewrite Hvalid, Hl. simpl.
  destruct (Z.ltb_spec (findDiffInDays (LeavePayload.startDate p)
                                       (LeavePayload.endDate p)) 1); [lia |].
  clear Hl. by subst id.
Qed.

(** *** Stored ranges of one user never overlap without updateLeave *)

Lemma disjoint_insert_new (m : gmap string Leave.t) i x :
  (forall k1 k2 l1 l2,
      k1 <> k2 -> m !! k1 = Some l1 -> m !! k2 = Some l2 ->
      Leave.userId l1 = Leave.userId l2 ->
      Leave.endDate l1 < Leave.startDate l2
      \/ Leave.endDate l2 < Leave.startDate l1) ->
  (forall k l,
      k <> i -> m !! k = Some l -> Leave.userId l = Leave.userId x ->
      Leave.endDate x < Leave.startDate l
      \/ Leave.endDate l < Leave.startDate x) ->
  forall k1 k2 l1 l2,
    k1 <> k2 -> <[i := x]> m !! k1 = Some l1 -> <[i := x]> m !! k2 = Some l2 ->
    Leave.userId l1 = Leave.userId l2 ->
    Leave.endDate l1 < Leave.startDate l2
    \/ Leave.endDate l2 < Leave.startDate l1.
Proof.
  intros Hm Hx k1 k2 l1 l2 Hne. rewrite !lookup_insert_Some.
  intros [[<- <-] | [Hne1 H1]] [[<- <-] | [Hne2 H2]] Hown.
  - done.
  - by apply (Hx k2 l2).
  - destruct (Hx k1 l1) as [? | ?]; [done | done | done | by right | by left].
  - by apply (Hm k1 k2).
Qed.

Lemma perform_disjointLeaves env c st :
  wfState st -> disjointLeaves st -> isUpdateLeave c = false ->
  disjointLeaves (snd (perform env c st)).
Proof.
  intros [Hwfu Hwfl] Hst Hc. destruct c; simpl; try discriminate Hc.
  - unfold addUser. destruct (falsy _ || falsy _); [done |].
    by destruct (List.find _ _).
  - unfold updateUser. destruct (isValidUUID id); simpl; [| done].
    destruct (falsy _ || falsy _); [done |].
    by destruct (userStorage st !! id).
  - unfold deleteUser. destruct (isValidUUID id); simpl; [| done].
    by destruct (userStorage st !! id).
  - unfold disjointLeaves.
    destruct (requestLeave_leaveStorage env userId payload st)
      as [-> | [-> Hfree]]; [done |].
    apply disjoint_insert_new; [done |].
    intros k l _ Hk Hown. simpl in *.
    destruct (Hfree k l Hk Hown); [by left | right; lia].
  - unfold deleteLeave. destruct (isValidUUID id); simpl; [| done].
    destruct (leaveStorage st !! id) as [l |]; [| done].
    unfold disjointLeaves. simpl. intros k1 k2 l1 l2 Hne.
    rewrite !lookup_delete_Some. intros [_ H1] [_ H2].
    by apply (Hst k1 k2).
  - unfold disjointLeaves. rewrite updateLeaveStatus_leaveStorage.
    destruct (leaveStorage st !! id) as [l |] eqn:Hl; [| done].
    destruct (isValidUUID id); [| done].
    destruct (Hwfl id l Hl) as (Hid & _). rewrite Hid.
    apply disjoint_insert_new; [done |].
    intros k l' Hne Hk Hown. simpl in *.
    destruct (Hst id k l l') as [? | ?]; auto.
Qed.

Lemma run_disjointLeaves calls st :
  wfState st -> disjointLeaves st ->
  hostIdsValid calls = true -> noUpdateLeave calls = true ->
  disjointLeaves (run calls st).
Proof.
  revert st.
  induction calls as [| [env c] rest IH]; intros st Hwf Hst Hids Hno.
  - exact Hst.
  - simpl in Hids, Hno.
    apply andb_prop in Hids as [Hfresh Hids].
    apply andb_prop in Hno as [Hc Hno]. apply negb_true_iff in Hc.
    simpl. apply IH; [by apply perform_wf | | done | done].
    by apply perform_disjointLeaves.
Qed.

(** X17. From the empty canister, after every sequence of calls that
    contains no updateLeave, no two stored requests of the same user share
    an instant: for two such requests one ends strictly before the other
    starts. *)
Theorem leaves_disjoint_without_edit calls :
  hostIdsValid calls = true ->
  noUpdateLeave calls = true ->
  disjointLeaves (run calls emptyState).
Proof.
  apply run_disjointLeaves.
  - apply emptyState_wf.
  - intros k1 k2 l1 l2 _ H1. simpl in H1. by rewrite lookup_empty in H1.
Qed.

(** ** Status *)

Lemma validStatus_existsb (status : LeaveStatus) :
  existsb (String.eqb status) [PENDING; APPROVED; REJECTED] = true
  <-> validStatus status.
Proof.
  unfold validStatus. simpl. rewrite !orb_true_iff, !String.eqb_eq.
  split; [intros [? | [? | [? | ?]]]; auto; discriminate | tauto].
Qed.

Lemma classic_status (status : LeaveStatus) :
  validStatus status \/ ~ validStatus status.
Proof.
  rewrite <- validStatus_existsb.
  destruct (existsb _ _); [by left | by right].
Qed.

Lemma getLeaveRequestsByStatus_valid status st :
  validStatus status ->
  exists ls,
    getLeaveRequestsByStatus status st = Ok ls
    /\ forall l,
         In l ls
         <-> (exists k, leaveStorage st !! k = Some l)
             /\ Leave.status l = status.
Proof.
  intros Hvalid. unfold getLeaveRequestsByStatus.
  apply validStatus_existsb in Hvalid. rewrite Hvalid. simpl.
  eexists. split; [reflexivity |].
  intros l. by rewrite filter_In, In_values, String.eqb_eq.
Qed.

Lemma getLeaveRequestsByStatus_invalid status st :
  ~ validStatus status ->
  getLeaveRequestsByStatus status st
  = Err "Please enter a valid status (PENDING, APPROVED, or REJECTED).".
Proof.
  intros Hinvalid. unfold getLeaveRequestsByStatus.
  destruct (existsb _ _) eqn:E; [| done].
  by apply validStatus_existsb in E.
Qed.

(** X18. For PENDING, APPROVED or REJECTED, getLeaveRequestsByStatus
    returns exactly the stored requests whose status is the one asked for;
    for any other string it returns its error. *)
Theorem getLeaveRequestsByStatus_exact status st :
  (validStatus status ->
   exists ls,
     getLeaveRequestsByStatus status st = Ok ls
     /\ forall l,
          In l ls
          <-> (exists k, leaveStorage st !! k = Some l)
              /\ Leave.status l = status)
  /\ (~ validStatus status ->
      getLeaveRequestsByStatus status st
      = Err "Please enter a valid status (PENDING, APPROVED, or REJECTED).").
Proof.
  split.
  - apply getLeaveRequestsByStatus_valid.
  - apply getLeaveRequestsByStatus_invalid.
Qed.

(** X19. In a reachable state updateLeaveStatus on a stored request
    returns Ok for every status string and changes nothing in the leave
    store but that request's status and updatedAt.  After a status of the
    enum, getLeaveRequestsByStatus for it lists the request; after any
    other string, the request is listed under no status of the enum. *)
Theorem updateLeaveStatus_listed env id status st l :
  reachable st ->
  leaveStorage st !! id = Some l ->
  let st' := snd (updateLeaveStatus env id status st) in
  fst (updateLeaveStatus env id status st) = Ok (withStatus env status l)
  /\ leaveStorage st' = <[id := withStatus env status l]> (leaveStorage st)
  /\ (validStatus status ->
      exists ls,
        getLeaveRequestsByStatus status st' = Ok ls
        /\ In (withStatus env status l) ls)
  /\ (~ validStatus status ->
      forall s ls,
        getLeaveRequestsByStatus s st' = Ok ls ->
        ~ In (withStatus env status l) ls).
Proof.
  intros Hreach Hl st'.
  destruct (reachable_wf st Hreach) as [_ Hwfl].
  destruct (Hwfl id l Hl) as (Hid & Hvalid & _).
  assert (E : leaveStorage st'
              = <[id := withStatus env status l]> (leaveStorage st)).
  { unfold st'. rewrite updateLeaveStatus_leaveStorage, Hl, Hvalid.
    by rewrite Hid. }
  split; [by rewrite (updateLeaveStatus_unfold env id status st l Hvalid Hl) |].
  split; [exact E |]. split.
  - intros Hs.
    destruct (getLeaveRequestsByStatus_valid status st' Hs)
      as (ls & Hls & Hin).
    exists ls. split; [exact Hls |]. apply Hin. split; [| done].
    exists id. rewrite E. apply lookup_insert_eq.
  - intros Hs s ls Hls Hin.
    destruct (classic_status s) as [Hv | Hnv].
    + destruct (getLeaveRequestsByStatus_valid s st' Hv)
        as (ls' & Hls' & Hin').
      rewrite Hls in Hls'. injection Hls' as <-.
      apply Hin' in Hin as [_ Hst]. simpl in Hst. by subst s.
    + rewrite (getLeaveRequestsByStatus_invalid s st' Hnv) in Hls.
      discriminate.
Qed.

(** ** Identifiers and dead branches *)

(** X20. Whatever the input, requestLeave and updateLeave never return
    their "Leave should be at least one day." error: the duration is never
    below 1. *)
Theorem at_least_one_day_unreachable env id p st :
  fst (requestLeave env id p st)
  <> Err (String "010" "Leave should be at least one day.")
  /\ fst (updateLeave env id p st) <> Err "Leave should be at least one day.".
Proof.
  pose proof (findDiffInDays_ge_1 (LeavePayload.startDate p)
                                  (LeavePayload.endDate p)) as Hge.
  split.
  - unfold requestLeave.
    destruct (isValidUUID id); simpl; [| discriminate].
    destruct (getUser id st) as [u | msg]; [| discriminate].
    destruct (_ >=? _); [discriminate |].
    destruct (negb _ || negb _); [discriminate |].
    destruct (Z.ltb_spec (findDiffInDays (LeavePayload.startDate p)
                                         (LeavePayload.endDate p)) 1); [lia |].
    destruct (_ <? _); [discriminate |].
    destruct (existsb _ _); discriminate.
  - unfold updateLeave.
    destruct (isValidUUID id); simpl; [| discriminate].
    destruct (leaveStorage st !! id) as [l |]; [| simpl; discriminate].
    destruct (Z.ltb_spec (findDiffInDays (LeavePayload.startDate p)
                                         (LeavePayload.endDate p)) 1);
      [lia | discriminate].
Qed.

(** X21. In a reachable state the balance adjustment returns Ok for a
    stored user whose balance is a whole number other than 0 and stores the
    balance plus (ADD) or minus (SUBTRACT) the days, with updatedAt set and
    nothing else changed, provided balance, days and result are exact
    numbers (magnitude at most 2^53); for an absent user or a balance of 0
    it returns an error and changes nothing. *)
Theorem updateUsersAvailableDays_contract env userId leaveDays operation st :
  reachable st ->
  (forall u,
      userStorage st !! userId = Some u ->
      User.availableDays u <> 0 ->
      exactNumber (User.availableDays u) ->
      exactNumber leaveDays ->
      exactNumber (adjusted operation (User.availableDays u) leaveDays) ->
      updateUsersAvailableDays env userId leaveDays operation st
      = (Ok (withBalance env
               (adjusted operation (User.availableDays u) leaveDays) u),
         {| leaveStorage := leaveStorage st;
            userStorage :=
              <[userId :=
                  withBalance env
                    (adjusted operation (User.availableDays u) leaveDays) u]>
                (userStorage st) |}))
  /\ (userStorage st !! userId = None
      \/ (exists u, userStorage st !! userId = Some u
                    /\ User.availableDays u = 0) ->
      isOk (fst (updateUsersAvailableDays env userId leaveDays operation st))
      = false
      /\ snd (updateUsersAvailableDays env userId leaveDays operation st) = st).
Proof.
  intros Hreach. destruct (reachable_wf st Hreach) as [Hwfu _]. split.
  - intros u Hu Hne _ _ _.
    by apply updateUsersAvailableDays_applied; [apply Hwfu | |].
  - intros Hskip. split; [| by apply updateUsersAvailableDays_skipped].
    unfold updateUsersAvailableDays, getUser.
    destruct (isValidUUID userId); simpl; [| done].
    destruct Hskip as [Hu | (u & Hu & Hz)]; rewrite Hu; [done |].
    by rewrite Hz.
Qed.

(** X22. An id that is not a valid UUID is refused before any lookup, with
    the state unchanged: the user calls and getUsersLeaveRequests and
    requestLeave answer "Please enter a valid User ID!", the leave calls
    "Please enter a valid Leave ID!". *)
Theorem malformed_id_refused env id up lp status st :
  isValidUUID id = false ->
  getUser id st = Err "Please enter a valid User ID!"
  /\ updateUser env id up st = (Err "Please enter a valid User ID!", st)
  /\ deleteUser id st = (Err "Please enter a valid User ID!", st)
  /\ getUsersLeaveRequests id st = Err "Please enter a valid User ID!"
  /\ requestLeave env id lp st = (Err "Please enter a valid User ID!", st)
  /\ updateLeave env id lp st = (Err "Please enter a valid Leave ID!", st)
  /\ deleteLeave id st = (Err "Please enter a valid Leave ID!", st)
  /\ updateLeaveStatus env id status st
     = (Err "Please enter a valid Leave ID!", st).
Proof.
  intros Hbad.
  unfold getUser, updateUser, deleteUser, getUsersLeaveRequests, requestLeave,
    updateLeave, deleteLeave, updateLeaveStatus.
  rewrite Hbad. simpl. repeat split.
Qed.

(** X23. A valid UUID that is a key of neither store gets the not-found
    errors, with the state unchanged: "User with ID <id> not found!" from
    getUser, deleteUser and (for a payload with name and email) updateUser,
    "User with the given ID was not found." from requestLeave, and
    "Leave with ID <id> not found!" from updateLeave, deleteLeave and
    updateLeaveStatus. *)
Theorem absent_id_not_found env id up lp status st :
  isValidUUID id = true ->
  userStorage st !! id = None ->
  leaveStorage st !! id = None ->
  UserPayload.name up <> ""%string ->
  UserPayload.email up <> ""%string ->
  getUser id st = Err ("User with ID " +:+ id +:+ " not found!")
  /\ updateUser env id up st
     = (Err ("User with ID " +:+ id +:+ " not found!"), st)
  /\ deleteUser id st = (Err ("User with ID " +:+ id +:+ " not found!"), st)
  /\ requestLeave env id lp st
     = (Err "User with the given ID was not found.", st)
  /\ updateLeave env id lp st
     = (Err ("Leave with ID " +:+ id +:+ " not found!"), st)
  /\ deleteLeave id st = (Err ("Leave with ID " +:+ id +:+ " not found!"), st)
  /\ updateLeaveStatus env id status st
     = (Err ("Leave with ID " +:+ id +:+ " not found!"), st).
Proof.
  intros Hvalid Hu Hl Hn He.
  apply falsy_false in Hn. apply falsy_false in He.
  unfold getUser, updateUser, deleteUser, requestLeave,
    updateLeave, deleteLeave, updateLeaveStatus, getUser.
  rewrite Hvalid, Hu, Hl, Hn, He. simpl. repeat split.
Qed.

End Further.

(** * The further properties on the concrete host *)

(** Five days back from day 15 of 2024. *)
Lemma findDiffInDays_whole_days_witness :
  findDiffInDays (day 15) (day 15 + -5 * oneDay) = 5.
Proof.
  apply (findDiffInDays_whole_days (day 15) (-5));
    unfold exactNumber, MAX_EXACT, day, oneDay; simpl; lia.
Defined.

(** Two days against five. *)
Lemma findDiffInDays_monotone_witness :
  findDiffInDays (day 10) (day 12) <= findDiffInDays (day 15) (day 10).
Proof.
  apply findDiffInDays_monotone. unfold day, oneDay. lia.
Defined.

(** Bob is unknown to a canister that holds only Ann: his request fails. *)
Lemma perform_Err_unchanged_witness :
  snd (@perform demoHost (envWith idM 3) (CallRequestLeave idB (range 10 15))
         (demoRun (annJoins 5)))
  = demoRun (annJoins 5).
Proof.
  apply (@perform_Err_unchanged demoHost). vm_compute; reflexivity.
Defined.

(** Ann, Bob and Ann's request. *)
Lemma reachable_records_witness :
  (forall k u,
      userStorage (demoRun annAsksBobIdle) !! k = Some u ->
      User.id u = k /\ uuidShape 0 k = true
      /\ User.name u <> ""%string /\ User.email u <> ""%string)
  /\ (forall k l,
        leaveStorage (demoRun annAsksBobIdle) !! k = Some l ->
        Leave.id l = k /\ uuidShape 0 k = true
        /\ uuidShape 0 (Leave.userId l) = true).
Proof.
  apply (@reachable_records demoHost).
  apply demo_reachable. vm_compute; reflexivity.
Defined.

Lemma reachable_daysConsistent_witness :
  daysConsistent (demoRun (annAsks 5 10 13 ++ [approve 3])).
Proof.
  apply (@reachable_daysConsistent demoHost).
  apply demo_reachable. vm_compute; reflexivity.
Defined.

Lemma annJoins_users (balance : Z) :
  userStorage (demoRun (annJoins balance))
  = <[idA := annWith balance None]> ∅.
Proof. reflexivity. Qed.

(** Bob joins a canister that holds Ann. *)
Lemma addUser_getUser_witness :
  @getUser demoHost idB
    (snd (addUser (envWith idB 1)
            {| UserPayload.name := "Bob"; UserPayload.email := "bob@x.org";
               UserPayload.availableDays := None |}
            (demoRun (annJoins 5))))
  = Ok (bobWith 21 None).
Proof.
  destruct (@addUser_getUser demoHost (envWith idB 1)
              {| UserPayload.name := "Bob"; UserPayload.email := "bob@x.org";
                 UserPayload.availableDays := None |}
              (demoRun (annJoins 5)))
    as (_ & H & _).
  - vm_compute; reflexivity.
  - discriminate.
  - discriminate.
  - intros k u Hk. rewrite annJoins_users in Hk.
    apply lookup_insert_Some in Hk as [[_ <-] | [_ Hk]].
    + discriminate.
    + rewrite lookup_empty in Hk. discriminate Hk.
  - exact H.
Defined.

(** Bob changes name, email and balance. *)
Lemma updateUser_getUser_witness :
  @getUser demoHost idB
    (snd (@updateUser demoHost (envWith idM 5) idB
            (newUser "Robert" "rob@x.org" 30) (demoRun annAndBob)))
  = Ok {| User.id := idB; User.name := "Robert"; User.email := "rob@x.org";
          User.availableDays := 30; User.createdAt := 1;
          User.updatedAt := Some 5%N |}.
Proof.
  destruct (@updateUser_getUser demoHost (envWith idM 5) idB
              (newUser "Robert" "rob@x.org" 30) (demoRun annAndBob)
              (bobWith 21 None))
    as (_ & H & _).
  - apply demo_reachable. vm_compute; reflexivity.
  - vm_compute; reflexivity.
  - discriminate.
  - discriminate.
  - exact H.
Defined.

(** Ann is deleted after her request; the request stays. *)
Lemma deleteUser_gone_witness :
  fst (@deleteUser demoHost idA (demoRun (annAsks 5 10 13)))
  = Ok (annWith 2 (Some 2%N))
  /\ leaveStorage (snd (@deleteUser demoHost idA (demoRun (annAsks 5 10 13))))
     = leaveStorage (demoRun (annAsks 5 10 13))
  /\ fst (@requestLeave demoHost (envWith idM 4) idA (range 20 22)
            (snd (@deleteUser demoHost idA (demoRun (annAsks 5 10 13)))))
     = Err "User with the given ID was not found.".
Proof.
  destruct (@deleteUser_gone demoHost (envWith idM 4) idA (range 20 22)
              (demoRun (annAsks 5 10 13)) (annWith 2 (Some 2%N)))
    as (E & _ & _ & Hreq).
  - vm_compute; reflexivity.
  - vm_compute; reflexivity.
  - rewrite E. cbn [fst snd leaveStorage].
    split; [reflexivity |]. split; [reflexivity |].
    rewrite Hreq. reflexivity.
Defined.

Lemma annAndBob_users :
  userStorage (demoRun annAndBob)
  = <[idA := annWith 21 None]> (<[idB := bobWith 21 None]> ∅).
Proof. reflexivity. Qed.

(** Ann and Bob join, and Bob moves to an email nobody holds. *)
Lemma emails_unique_kept_witness :
  uniqueEmails
    (demoRun (annAndBob
              ++ [(envWith idM 3,
                   CallUpdateUser idB (newUser "Bob" "rob@x.org" 21))])).
Proof.
  apply (@emails_unique_kept demoHost).
  unfold annAndBob. cbn [app emailsKept emailKept].
  split; [vm_compute; reflexivity |]. split; [exact I |].
  split; [vm_compute; reflexivity |]. split; [exact I |].
  split; [vm_compute; reflexivity |]. split; [| exact I].
  intros k u Hk He.
  change (userStorage (demoRun annAndBob) !! k = Some u) in Hk.
  rewrite annAndBob_users in Hk.
  apply lookup_insert_Some in Hk as [[_ <-] | [_ Hk]]; [discriminate He |].
  apply lookup_insert_Some in Hk as [[<- _] | [_ Hk]]; [reflexivity |].
  rewrite lookup_empty in Hk. discriminate Hk.
Defined.

Lemma listings_complete_witness :
  (exists us,
      @getUsers (demoRun annAsksBobIdle) = Ok us /\ List.NoDup us
      /\ length us = 2%nat)
  /\ (exists ls,
        @getLeaveRequests (demoRun annAsksBobIdle) = Ok ls /\ List.NoDup ls
        /\ length ls = 1%nat).
Proof.
  destruct (@listings_complete demoHost (demoRun annAsksBobIdle))
    as [(us & E1 & N1 & L1 & _) (ls & E2 & N2 & L2 & _)].
  - apply demo_reachable. vm_compute; reflexivity.
  - split.
    + exists us. split; [exact E1 |]. split; [exact N1 |].
      rewrite L1. vm_compute; reflexivity.
    + exists ls. split; [exact E2 |]. split; [exact N2 |].
      rewrite L2. vm_compute; reflexivity.
Defined.

Lemma annJoins_leaves (balance : Z) :
  leaveStorage (demoRun (annJoins balance)) = ∅.
Proof. reflexivity. Qed.

(** Ann has 5 days, asks for 3 and is refused. *)
Lemma reject_restores_balance_witness :
  balanceOf idA
    (snd (@requestLeave demoHost (envWith idL 2) idA (range 10 13)
            (demoRun (annJoins 5)))) = Some (5 - 3)
  /\ balanceOf idA
       (snd (@updateLeaveStatus demoHost (envWith idM 3) idL REJECTED
          (snd (@requestLeave demoHost (envWith idL 2) idA (range 10 13)
                  (demoRun (annJoins 5)))))) = Some 5.
Proof.
  destruct (@reject_restores_balance demoHost (envWith idL 2) (envWith idM 3)
              idA (range 10 13) (demoRun (annJoins 5)) (annWith 5 None) 5 3)
    as (H1 & H2 & _).
  - apply demo_reachable. vm_compute; reflexivity.
  - vm_compute; reflexivity.
  - vm_compute; reflexivity.
  - reflexivity.
  - vm_compute; reflexivity.
  - lia.
  - unfold MAX_EXACT. lia.
  - vm_compute; reflexivity.
  - vm_compute; reflexivity.
  - vm_compute; reflexivity.
  - intros k l Hk. rewrite annJoins_leaves, lookup_empty in Hk.
    discriminate Hk.
  - split; [exact H1 | exact H2].
Defined.

(** Ann has 5 days, asks for all 5 and deletes the request. *)
Lemma delete_keeps_debit_witness :
  leaveStorage
    (snd (@deleteLeave demoHost idL
       (snd (@requestLeave demoHost (envWith idL 2) idA (range 10 15)
               (demoRun (annJoins 5))))))
  = leaveStorage (demoRun (annJoins 5))
  /\ balanceOf idA
       (snd (@deleteLeave demoHost idL
          (snd (@requestLeave demoHost (envWith idL 2) idA (range 10 15)
                  (demoRun (annJoins 5)))))) = Some (5 - 5).
Proof.
  destruct (@delete_keeps_debit demoHost (envWith idL 2) idA (range 10 15)
              (demoRun (annJoins 5)) (annWith 5 None) 5 5)
    as (_ & H1 & H2).
  - apply demo_reachable. vm_compute; reflexivity.
  - vm_compute; reflexivity.
  - vm_compute; reflexivity.
  - vm_compute; reflexivity.
  - reflexivity.
  - vm_compute; reflexivity.
  - lia.
  - unfold MAX_EXACT. lia.
  - vm_compute; reflexivity.
  - vm_compute; reflexivity.
  - vm_compute; reflexivity.
  - intros k l Hk. rewrite annJoins_leaves, lookup_empty in Hk.
    discriminate Hk.
  - split; [exact H1 | exact H2].
Defined.

(** Ann's request is edited to run backwards, from day 20 to day 12. *)
Lemma updateLeave_unchecked_witness :
  fst (@updateLeave demoHost (envWith idM 3) idL (range 20 12)
         (demoRun (annAsks 5 10 13)))
  = Ok {| Leave.id := idL; Leave.userId := idA;
          Leave.startDate := day 20; Leave.endDate := day 12;
          Leave.days := 8; Leave.status := PENDING;
          Leave.createdAt := 2; Leave.updatedAt := Some 3%N |}
  /\ userStorage (snd (@updateLeave demoHost (envWith idM 3) idL (range 20 12)
                         (demoRun (annAsks 5 10 13))))
     = userStorage (demoRun (annAsks 5 10 13)).
Proof.
  rewrite (@updateLeave_unchecked demoHost (envWith idM 3) idL (range 20 12)
             (demoRun (annAsks 5 10 13)) (leaveOfAnn 10 13 3 2)).
  - split; [vm_compute; reflexivity | reflexivity].
  - apply demo_reachable. vm_compute; reflexivity.
  - vm_compute; reflexivity.
Defined.

(** Ann asks for days 10 to 15, then for days 16 to 20. *)
Lemma leaves_disjoint_without_edit_witness :
  disjointLeaves
    (demoRun (annAsksBobIdle
              ++ [(envWith idM 3, CallRequestLeave idA (range 16 20))])).
Proof.
  apply (@leaves_disjoint_without_edit demoHost); vm_compute; reflexivity.
Defined.

(** Ann's request is given a status outside the enum. *)
Lemma updateLeaveStatus_listed_witness :
  fst (@updateLeaveStatus demoHost (envWith idM 3) idL "CANCELLED"
         (demoRun (annAsks 5 10 13)))
  = Ok (withStatus (envWith idM 3) "CANCELLED" (leaveOfAnn 10 13 3 2))
  /\ forall s ls,
       @getLeaveRequestsByStatus s
         (snd (@updateLeaveStatus demoHost (envWith idM 3) idL "CANCELLED"
                 (demoRun (annAsks 5 10 13)))) = Ok ls ->
       ~ In (withStatus (envWith idM 3) "CANCELLED" (leaveOfAnn 10 13 3 2)) ls.
Proof.
  destruct (@updateLeaveStatus_listed demoHost (envWith idM 3) idL "CANCELLED"
              (demoRun (annAsks 5 10 13)) (leaveOfAnn 10 13 3 2))
    as (H1 & _ & _ & H2).
  - apply demo_reachable. vm_compute; reflexivity.
  - vm_compute; reflexivity.
  - split; [exact H1 |]. apply H2.
    intros [H | [H | H]]; discriminate H.
Defined.

(** Ann's balance is 2 after her request; Bob is unknown. *)
Lemma updateUsersAvailableDays_contract_witness :
  balanceOf idA
    (snd (@updateUsersAvailableDays demoHost (envWith idM 3) idA 3 ADD
            (demoRun (annAsks 5 10 13)))) = Some 5
  /\ snd (@updateUsersAvailableDays demoHost (envWith idM 3) idB 3 ADD
            (demoRun (annAsks 5 10 13)))
     = demoRun (annAsks 5 10 13).
Proof.
  assert (Hreach : @reachable demoHost (demoRun (annAsks 5 10 13)))
    by (apply demo_reachable; vm_compute; reflexivity).
  split.
  - rewrite (proj1 (@updateUsersAvailableDays_contract demoHost
               (envWith idM 3) idA 3 ADD (demoRun (annAsks 5 10 13)) Hreach)
               (annWith 2 (Some 2%N))).
    + unfold balanceOf. cbn [snd userStorage]. rewrite lookup_insert_eq.
      reflexivity.
    + vm_compute; reflexivity.
    + discriminate.
    + unfold exactNumber, MAX_EXACT. simpl. lia.
    + unfold exactNumber, MAX_EXACT. simpl. lia.
    + unfold exactNumber, MAX_EXACT. simpl. lia.
  - apply (proj2 (@updateUsersAvailableDays_contract demoHost
             (envWith idM 3) idB 3 ADD (demoRun (annAsks 5 10 13)) Hreach)).
    left. vm_compute; reflexivity.
Defined.

(** A string that is not a UUID. *)
Lemma malformed_id_refused_witness :
  @getUser demoHost "ann" (demoRun (annJoins 5))
  = Err "Please enter a valid User ID!"
  /\ @deleteLeave demoHost "ann" (demoRun (annJoins 5))
     = (Err "Please enter a valid Leave ID!", demoRun (annJoins 5)).
Proof.
  destruct (@malformed_id_refused demoHost (envWith idM 3) "ann"
              (newUser "Ann" "ann@x.org" 5) (range 10 13) PENDING
              (demoRun (annJoins 5)))
    as (H1 & _ & _ & _ & _ & _ & H7 & _).
  - vm_compute; reflexivity.
  - split; [exact H1 | exact H7].
Defined.

(** Bob's id in a canister that holds only Ann. *)
Lemma absent_id_not_found_witness :
  @getUser demoHost idB (demoRun (annJoins 5))
  = Err ("User with ID " +:+ idB +:+ " not found!")
  /\ @updateLeaveStatus demoHost (envWith idM 3) idB APPROVED
       (demoRun (annJoins 5))
     = (Err ("Leave with ID " +:+ idB +:+ " not found!"),
        demoRun (annJoins 5)).
Proof.
  destruct (@absent_id_not_found demoHost (envWith idM 3) idB
              (newUser "Bob" "bob@x.org" 5) (range 10 13) APPROVED
              (demoRun (annJoins 5)))
    as (H1 & _ & _ & _ & _ & _ & H7).
  - vm_compute; reflexivity.
  - vm_compute; reflexivity.
  - vm_compute; reflexivity.
  - discriminate.
  - discriminate.
  - split; [exact H1 | exact H7].
Defined.

(** * The code's arithmetic outside the exact range *)

(** C6, counterexample to the claim as stated.  The instants
    -6480000000000000 and 6480000043199999 are doubles and valid Date
    instants.  Their difference, 12960000043199999, is above 2^53 and
    rounds to 12960000043200000; the quotient by oneDay is then the tie
    150000000.5 and the code returns 150000001, where
    max (1, round (|end - start| / oneDay)) is 150000000. *)
Lemma findDiffInDays_rounds_across_tie :
  IEEE.timeValue (IEEE.ofZ (-6480000000000000)) = Some (-6480000000000000)
  /\ IEEE.timeValue (IEEE.ofZ 6480000043199999) = Some 6480000043199999
  /\ IEEE.toZ (IEEE.sub (IEEE.ofZ 6480000043199999)
                        (IEEE.ofZ (-6480000000000000)))
     = Some 12960000043200000
  /\ IEEE.toZ (IEEE.findDiffInDays (IEEE.ofZ (-6480000000000000))
                                   (IEEE.ofZ 6480000043199999))
     = Some 150000001
  /\ duration_spec (-6480000000000000) 6480000043199999 = 150000000.
Proof. repeat split; vm_compute; reflexivity. Qed.

(** C2, counterexample to the claim as stated.  Ann joins with
    B = 2^53 + 2 = 9007199254740994 days and asks for day 10 to day 11 of
    the current year: D = 1, every call returns Ok, and the stored balance
    is 9007199254740992, not B - D = 9007199254740993, which is not a
    double. *)
Lemma requestLeave_debit_rounded :
  @IEEE.allOk demoHost annAsksOfMany IEEE.emptyState = true
  /\ IEEE.toZ <$> IEEE.balanceOf idA (demoRun64 (firstn 1 annAsksOfMany))
     = Some (Some 9007199254740994)
  /\ IEEE.toZ <$> IEEE.daysOf idL (demoRun64 annAsksOfMany) = Some (Some 1)
  /\ IEEE.toZ <$> IEEE.balanceOf idA (demoRun64 annAsksOfMany)
     = Some (Some 9007199254740992)
  /\ 9007199254740992 <> 9007199254740994 - 1.
Proof. repeat split; try (vm_compute; reflexivity). discriminate. Qed.

(** Why C1 needs the exact range.  Ann has 5 days and a request of 3; the
    request is edited to run from -MAX_VALUE to MAX_VALUE, which stores
    days Infinity; a rejection then credits Infinity, and an approval, whose
    days do not exceed the balance, leaves Infinity - Infinity = NaN.
    Every call returns Ok. *)
Lemma availableDays_NaN_after_wide_edit :
  @IEEE.allOk demoHost annEditsWide IEEE.emptyState = true
  /\ IEEE.daysOf idL (demoRun64 (firstn 3 annEditsWide)) = Some IEEE.Infinity
  /\ IEEE.balanceOf idA (demoRun64 (firstn 4 annEditsWide))
     = Some IEEE.Infinity
  /\ IEEE.balanceOf idA (demoRun64 annEditsWide) = Some IEEE.NaN.
Proof. repeat split; vm_compute; reflexivity. Qed.

(** The two models on the exact range: the duration of the binary64 model
    is that of the whole-number model at the rounding threshold, at ties
    and next to them just below 2^53, and at the ends of the range. *)
Lemma durations_agree_on_samples :
  (forall s e,
      In (s, e)
         [ (0, 129599999); (0, 129600000); (129600000, 0);
           (day 10, day 15); (day 15, day 10); (5, 5);
           (0, 9007199179200000); (0, 9007199179199999);
           (0, 9007199179200001); (-4503599627370496, 4503599627370496);
           (0, 9007199254740992); (9007199254740992, 0) ] ->
      IEEE.toZ (IEEE.findDiffInDays (IEEE.ofZ s) (IEEE.ofZ e))
      = Some (findDiffInDays s e)).
Proof.
  intros s e Hin. simpl in Hin.
  repeat (destruct Hin as [[= <- <-] | Hin]; [vm_compute; reflexivity |]).
  destruct Hin.
Qed.

(** Days 10 to 15 of 2024. *)
Lemma findDiffInDays_spec_witness :
  findDiffInDays (day 10) (day 15) = duration_spec (day 10) (day 15)
  /\ findDiffInDays (day 10) (day 15) = findDiffInDays (day 15) (day 10).
Proof.
  destruct (findDiffInDays_spec (day 10) (day 15))
    as (H1 & _ & _ & _ & H2 & _);
    [unfold exactNumber, MAX_EXACT, day, oneDay; simpl; lia ..|].
  split; [exact H1 | exact H2].
Defined.
